(** * Lyra Chat: the streaming adapters and the session-update protocol

    A shallow embedding of [services/aiService.ts] (class [AIService]),
    of the turn handler of [App.tsx] ([handleSendMessage], [deleteChat],
    [createNewChat]) and of [ChatInput.handleSend], with the properties the
    specification states about them.

    Conventions of the embedding.
    - A JavaScript string is a [string], one [ascii] per UTF-16 code unit;
      code units above 255 are outside the model.
    - [Date.now()] readings are arguments of the functions that take them.
    - The network, the Gemini SDK and [JSON.parse] are the environment: a
      call is given the outcome the environment produces, and the requests
      and callback invocations a call makes are collected in a trace. *)

From Stdlib Require Import String Ascii List Bool Arith NArith Lia.
From Stdlib Require Import DecimalString DecimalPos DecimalN.
Import ListNotations.
Open Scope string_scope.
Set Warnings "-register-all".

(** ** JavaScript string primitives used by the source *)
Module JS.

(** [WhiteSpace] and [LineTerminator] code units below 256: TAB, LF, VT,
    FF, CR, SP and NBSP. *)
Definition isWhiteSpace (c : ascii) : bool :=
  let n := nat_of_ascii c in
  (((9 <=? n) && (n <=? 13)) || (n =? 32) || (n =? 160))%nat.

Fixpoint trimStart (s : string) : string :=
  match s with
  | EmptyString => EmptyString
  | String c s' => if isWhiteSpace c then trimStart s' else s
  end.

Fixpoint trimEnd (s : string) : string :=
  match s with
  | EmptyString => EmptyString
  | String c s' =>
      match trimEnd s' with
      | EmptyString => if isWhiteSpace c then EmptyString
                       else String c EmptyString
      | r => String c r
      end
  end.

(** [s.trim()] *)
Definition trim (s : string) : string := trimEnd (trimStart s).

(** [s.split(sep)] for a separator of one code unit. *)
Fixpoint split (sep : ascii) (s : string) : list string :=
  match s with
  | EmptyString => [EmptyString]
  | String c s' =>
      if Ascii.eqb c sep then EmptyString :: split sep s'
      else match split sep s' with
           | [] => [String c EmptyString]
           | w :: ws => String c w :: ws
           end
  end.

(** [parts.join(sep)] *)
Fixpoint join (sep : string) (parts : list string) : string :=
  match parts with
  | [] => EmptyString
  | [p] => p
  | p :: ps => p ++ sep ++ join sep ps
  end.

(** [s.startsWith(p)] *)
Definition startsWith (p s : string) : bool := String.prefix p s.

(** [s.includes(sub)] *)
Fixpoint includes (sub s : string) : bool :=
  String.prefix sub s ||
  match s with
  | EmptyString => false
  | String _ s' => includes sub s'
  end.

(** [s.slice(n)] for [n >= 0] *)
Fixpoint slice (n : nat) (s : string) : string :=
  match n, s with
  | O, _ => s
  | S _, EmptyString => EmptyString
  | S n', String _ s' => slice n' s'
  end.

(** [!s] for a string: only the empty string is falsy. *)
Definition falsy (s : string) : bool := (s =? "")%string.

(** [n.toString()] for a non-negative integer below 2^53. *)
Definition toString (n : N) : string := NilEmpty.string_of_uint (N.to_uint n).

Definition LF : ascii := ascii_of_nat 10.

(** The double quote. *)
Definition quote : ascii := ascii_of_nat 34.

End JS.

(** ** JSON values as the program observes them *)
Module JSON.

(** A number is carried by the two things the program can observe of it:
    whether it is truthy (not zero) and its string form. *)
Inductive t : Type :=
| Null
| Bool (b : bool)
| Number (nonzero : bool) (text : string)
| Str (s : string)
| Array (elements : list t)
| Object (members : list (string * t)).

(** [o[k]] on an object made by [JSON.parse] or an object literal: the last
    member of that name. *)
Fixpoint lookup (k : string) (members : list (string * t)) : option t :=
  match members with
  | [] => None
  | (k', v) :: rest =>
      match lookup k rest with
      | Some w => Some w
      | None => if (k =? k')%string then Some v else None
      end
  end.

(** Truthiness of a value: [null], [false], [0] and [""] are falsy. *)
Definition truthy (v : t) : bool :=
  match v with
  | Null => false
  | Bool b => b
  | Number nz _ => nz
  | Str s => negb (JS.falsy s)
  | Array _ | Object _ => true
  end.

(** The object has an own member of the name. *)
Definition hasOwn (k : string) (members : list (string * t)) : bool :=
  existsb (fun kv => (fst kv =? k)%string) members.

(** The string a value becomes where the program adds it to a string;
    [None] where that throws.  An array is its elements joined by commas,
    [null] among them giving the empty string.  An object made by
    [JSON.parse] is ["[object Object]"], unless it has an own member
    [toString]: that member is no function, so neither it nor the inherited
    [valueOf] gives a primitive, and the conversion throws a TypeError. *)
Fixpoint ToString (v : t) : option string :=
  match v with
  | Null => Some "null"
  | Bool true => Some "true"
  | Bool false => Some "false"
  | Number _ text => Some text
  | Str s => Some s
  | Array l =>
      option_map (JS.join ",")
        ((fix each (es : list t) : option (list string) :=
            match es with
            | [] => Some []
            | e :: rest =>
                match match e with Null => Some "" | _ => ToString e end, each rest with
                | Some x, Some xs => Some (x :: xs)
                | _, _ => None
                end
            end) l)
  | Object members =>
      if hasOwn "toString" members then None else Some "[object Object]"
  end.

End JSON.

(** ** A reference [JSON.parse]

    The adapter is stated over an arbitrary parser; this one instantiates it
    for closed examples.  It accepts the JSON grammar of ECMA-404 as
    [JSON.parse] does and returns [None] where [JSON.parse] throws.  Its
    limits: the string form of a number is exact for integer literals (no
    fraction, no exponent, at most 15 digits) and the literal itself
    otherwise; a number is taken for zero when its digits are, so a
    literal that underflows to zero counts as truthy; and a [u] escape
    above code 255 names a code unit outside the model and is refused. *)
Module JSONText.

Definition isWS (c : ascii) : bool :=
  let n := nat_of_ascii c in ((n =? 32) || (n =? 9) || (n =? 10) || (n =? 13))%nat.

Fixpoint skip_ws (s : list ascii) : list ascii :=
  match s with
  | c :: r => if isWS c then skip_ws r else s
  | [] => []
  end.

Definition isDigit (c : ascii) : bool :=
  let n := nat_of_ascii c in ((48 <=? n) && (n <=? 57))%nat.

Definition hexval (c : ascii) : option nat :=
  let n := nat_of_ascii c in
  if ((48 <=? n) && (n <=? 57))%nat then Some (n - 48)
  else if ((65 <=? n) && (n <=? 70))%nat then Some (n - 55)
  else if ((97 <=? n) && (n <=? 102))%nat then Some (n - 87)
  else None.

Definition hex4 (a b c d : ascii) : option nat :=
  match hexval a, hexval b, hexval c, hexval d with
  | Some x, Some y, Some z, Some w => Some (((x * 16 + y) * 16 + z) * 16 + w)
  | _, _, _, _ => None
  end.

(** The character a one-letter escape stands for. *)
Definition escape (e : ascii) : option ascii :=
  if (e =? JS.quote)%char then Some e
  else if (e =? "\")%char then Some e
  else if (e =? "/")%char then Some e
  else if (e =? "b")%char then Some (ascii_of_nat 8)
  else if (e =? "f")%char then Some (ascii_of_nat 12)
  else if (e =? "n")%char then Some (ascii_of_nat 10)
  else if (e =? "r")%char then Some (ascii_of_nat 13)
  else if (e =? "t")%char then Some (ascii_of_nat 9)
  else None.

Definition cons_char (c : ascii) (r : option (string * list ascii))
  : option (string * list ascii) :=
  match r with
  | Some (s, rest) => Some (String c s, rest)
  | None => None
  end.

(** The characters of a string literal after its opening quote. *)
Fixpoint string_body (s : list ascii) : option (string * list ascii) :=
  match s with
  | [] => None
  | c :: r =>
      if (c =? JS.quote)%char then Some (EmptyString, r)
      else if (c =? "\")%char then
        match r with
        | [] => None
        | e :: r1 =>
            if (e =? "u")%char then
              match r1 with
              | h1 :: h2 :: h3 :: h4 :: r2 =>
                  match hex4 h1 h2 h3 h4 with
                  | Some n => if (n <? 256)%nat
                              then cons_char (ascii_of_nat n) (string_body r2)
                              else None
                  | None => None
                  end
              | _ => None
              end
            else match escape e with
                 | Some ch => cons_char ch (string_body r1)
                 | None => None
                 end
        end
      else if (nat_of_ascii c <? 32)%nat then None
      else cons_char c (string_body r)
  end.

(** The longest run of digits at the head of [s], and what follows it. *)
Fixpoint digits (s : list ascii) : list ascii * list ascii :=
  match s with
  | c :: r => if isDigit c then let (ds, rest) := digits r in (c :: ds, rest)
              else ([], s)
  | [] => ([], [])
  end.

Definition fraction (s : list ascii) : option (list ascii * list ascii) :=
  match s with
  | c :: r =>
      if (c =? ".")%char then
        match digits r with
        | ([], _) => None
        | (ds, rest) => Some (c :: ds, rest)
        end
      else Some ([], s)
  | [] => Some ([], [])
  end.

Definition exponent (s : list ascii) : option (list ascii * list ascii) :=
  match s with
  | c :: r =>
      if ((c =? "e") || (c =? "E"))%char then
        let (sign, r1) :=
          match r with
          | g :: r' => if ((g =? "+") || (g =? "-"))%char then ([g], r') else ([], r)
          | [] => ([], r)
          end in
        match digits r1 with
        | ([], _) => None
        | (ds, rest) => Some (c :: (sign ++ ds)%list, rest)
        end
      else Some ([], s)
  | [] => Some ([], [])
  end.

Definition nonzero_digit (c : ascii) : bool := isDigit c && negb (c =? "0")%char.

Definition number (s : list ascii) : option (JSON.t * list ascii) :=
  let (minus, s1) :=
    match s with
    | c :: r => if (c =? "-")%char then ([c], r) else ([], s)
    | [] => ([], s)
    end in
  match s1 with
  | d :: r =>
      if isDigit d then
        let (int, s2) := if (d =? "0")%char then ([d], r) else digits s1 in
        match fraction s2 with
        | Some (frac, s3) =>
            match exponent s3 with
            | Some (exp, s4) =>
                let nz := existsb nonzero_digit (int ++ frac)%list in
                let text :=
                  match frac, exp with
                  | [], [] => ((if nz then minus else []) ++ int)%list
                  | _, _ => (minus ++ int ++ frac ++ exp)%list
                  end in
                Some (JSON.Number nz (string_of_list_ascii text), s4)
            | None => None
            end
        | None => None
        end
      else None
  | [] => None
  end.

Fixpoint strip (p s : list ascii) : option (list ascii) :=
  match p, s with
  | [], _ => Some s
  | a :: p', b :: s' => if (a =? b)%char then strip p' s' else None
  | _ :: _, [] => None
  end.

Definition literal (word : string) (v : JSON.t) (s : list ascii)
  : option (JSON.t * list ascii) :=
  match strip (list_ascii_of_string word) s with
  | Some rest => Some (v, rest)
  | None => None
  end.

(** Recursive descent; the fuel bounds the depth of the calls, two per
    character consumed. *)
Fixpoint value (fuel : nat) (s : list ascii) : option (JSON.t * list ascii) :=
  match fuel with
  | O => None
  | S f =>
      match s with
      | [] => None
      | c :: r =>
          if (c =? "{")%char then
            match skip_ws r with
            | c' :: r' =>
                if (c' =? "}")%char then Some (JSON.Object [], r')
                else match members f (c' :: r') with
                     | Some (ms, rest) => Some (JSON.Object ms, rest)
                     | None => None
                     end
            | [] => None
            end
          else if (c =? "[")%char then
            match skip_ws r with
            | c' :: r' =>
                if (c' =? "]")%char then Some (JSON.Array [], r')
                else match elements f (c' :: r') with
                     | Some (vs, rest) => Some (JSON.Array vs, rest)
                     | None => None
                     end
            | [] => None
            end
          else if (c =? JS.quote)%char then
            match string_body r with
            | Some (str, rest) => Some (JSON.Str str, rest)
            | None => None
            end
          else if (c =? "t")%char then literal "true" (JSON.Bool true) s
          else if (c =? "f")%char then literal "false" (JSON.Bool false) s
          else if (c =? "n")%char then literal "null" JSON.Null s
          else number s
      end
  end
with elements (fuel : nat) (s : list ascii) : option (list JSON.t * list ascii) :=
  match fuel with
  | O => None
  | S f =>
      match value f (skip_ws s) with
      | Some (v, r) =>
          match skip_ws r with
          | c :: r' =>
              if (c =? ",")%char then
                match elements f r' with
                | Some (vs, rest) => Some (v :: vs, rest)
                | None => None
                end
              else if (c =? "]")%char then Some ([v], r')
              else None
          | [] => None
          end
      | None => None
      end
  end
with members (fuel : nat) (s : list ascii)
  : option (list (string * JSON.t) * list ascii) :=
  match fuel with
  | O => None
  | S f =>
      match skip_ws s with
      | q :: r =>
          if (q =? JS.quote)%char then
            match string_body r with
            | Some (k, r1) =>
                match skip_ws r1 with
                | c :: r2 =>
                    if (c =? ":")%char then
                      match value f (skip_ws r2) with
                      | Some (v, r3) =>
                          match skip_ws r3 with
                          | d :: r4 =>
                              if (d =? ",")%char then
                                match members f r4 with
                                | Some (ms, rest) => Some ((k, v) :: ms, rest)
                                | None => None
                                end
                              else if (d =? "}")%char then Some ([(k, v)], r4)
                              else None
                          | [] => None
                          end
                      | None => None
                      end
                    else None
                | [] => None
                end
            | None => None
            end
          else None
      | [] => None
      end
  end.

(** [JSON.parse(text)]: one value between optional white space. *)
Definition parse (text : string) : option JSON.t :=
  let s := list_ascii_of_string text in
  match value (2 * List.length s + 2) (skip_ws s) with
  | Some (v, rest) =>
      match skip_ws rest with
      | [] => Some v
      | _ :: _ => None
      end
  | None => None
  end.

End JSONText.


(** ** src/types.ts *)

Inductive ModelProvider : Type := Gemini | OpenAI | DeepSeek.

(** The string value of an enum member. *)
Definition providerName (p : ModelProvider) : string :=
  match p with
  | Gemini => "Gemini"
  | OpenAI => "OpenAI"
  | DeepSeek => "DeepSeek"
  end.

Definition ModelProvider_eqb (p q : ModelProvider) : bool :=
  match p, q with
  | Gemini, Gemini | OpenAI, OpenAI | DeepSeek, DeepSeek => true
  | _, _ => false
  end.

Inductive Role : Type := user | model.

Definition roleName (r : Role) : string :=
  match r with user => "user" | model => "model" end.

Module Message.
Record t : Type := mk {
  id : string;
  role : Role;
  content : string;
  timestamp : N;
  image : option string;
  isError : option bool
}.
End Message.

Module ChatSession.
Record t : Type := mk {
  id : string;
  title : string;
  messages : list Message.t;
  createdAt : N;
  updatedAt : N;
  model : ModelProvider
}.
End ChatSession.

Record UserProfile : Type := {
  name : string;
  avatarUrl : option string
}.

Record AppSettings : Type := {
  apiKeys : ModelProvider -> option string;
  systemInstruction : string;
  activeModel : ModelProvider;
  profile : UserProfile;
  darkMode : bool;
  enterToSend : bool
}.

(** An optional string in a condition: [undefined] and [""] are falsy. *)
Definition truthy_opt (o : option string) : bool :=
  match o with
  | Some s => negb (JS.falsy s)
  | None => false
  end.

(** ** aiService.ts: what [streamGemini] hands to the SDK *)
Module GeminiRequest.

(** [\w] of a regular expression without the unicode flag. *)
Definition isWordChar (c : ascii) : bool :=
  let n := nat_of_ascii c in
  (((48 <=? n) && (n <=? 57)) || ((65 <=? n) && (n <=? 90))
   || ((97 <=? n) && (n <=? 122)) || (n =? 95))%nat.

(** The text after the longest run of word characters at its head. *)
Fixpoint dropWord (s : string) : string :=
  match s with
  | EmptyString => EmptyString
  | String c r => if isWordChar c then dropWord r else s
  end.

(** The text after the prefix [p], if [s] begins with it. *)
Fixpoint stripPrefix (p s : string) : option string :=
  match p, s with
  | EmptyString, _ => Some s
  | String a p', String b s' => if (a =? b)%char then stripPrefix p' s' else None
  | String _ _, EmptyString => None
  end.

(** Line 7: [base64.replace(/^data:image\/\w+;base64,/, "")].  The run of
    word characters must be followed by [;], which is no word character,
    so only the longest run can match. *)
Definition base64Data (base64 : string) : string :=
  match stripPrefix "data:image/" base64 with
  | Some r =>
      match r with
      | String c _ =>
          if isWordChar c then
            match stripPrefix ";base64," (dropWord r) with
            | Some data => data
            | None => base64
            end
          else base64
      | EmptyString => base64
      end
  | None => base64
  end.

Inductive Part : Type :=
| inlineData (data mimeType : string)
| text (s : string).

(** Lines 5-14; every call leaves [mimeType] to its default. *)
Definition base64ToPart (base64 : string) : Part :=
  inlineData (base64Data base64) "image/jpeg".

(** Lines 99-101 and 105-107: the parts of one message. *)
Definition partsOf (m : Message.t) : list Part :=
  match Message.image m with
  | Some img =>
      if negb (JS.falsy img) then [base64ToPart img; text (Message.content m)]
      else [text (Message.content m)]
  | None => [text (Message.content m)]
  end.

(** Lines 94 and 97-102: [messages.slice(0, -1)] translated. *)
Definition history (messages : list Message.t) : list (Role * list Part) :=
  map (fun m => (Message.role m, partsOf m)) (removelast messages).

(** Lines 95 and 105-107: the parts of [messages[messages.length - 1]];
    [None] where reading [image] off [undefined] throws. *)
Definition newParts (messages : list Message.t) : option (list Part) :=
  match messages with
  | [] => None
  | m :: rest => Some (partsOf (last rest m))
  end.

End GeminiRequest.

(** ** src/services/aiService.ts *)
Module AIService.

(** A thrown value; [error instanceof Error] tells the two apart. *)
Inductive Thrown : Type :=
| ErrorObject (message : string)
| OtherValue.

(** What a call does to the outside: the requests it issues and the
    callbacks it invokes, in order.  A callback argument is recorded by
    its string form, which is all [App.tsx] reads of it ([+=] on a string
    and a template literal). *)
Inductive Event : Type :=
| Fetch (url authorization : string) (body : JSON.t)
| SdkSend (systemInstruction : string)
          (history : list (Role * list GeminiRequest.Part))
          (parts : list GeminiRequest.Part)
    (* the chat is created with the instruction and the history, and the
       parts of the new turn are handed to [sendMessageStream] *)
| OnChunk (text : string)
| OnComplete (fullText : string)
| OnError (message : string).

(** *** The monad of an async method: a trace and a result or a throw.
    The callbacks are those of [App.tsx]: they return normally. *)
Definition M (A : Type) : Type := (list Event * (Thrown + A))%type.

Definition ret {A} (a : A) : M A := ([], inr a).
Definition throw {A} (e : Thrown) : M A := ([], inl e).
Definition emit (ev : Event) : M unit := ([ev], inr tt).

Definition bind {A B} (m : M A) (f : A -> M B) : M B :=
  match m with
  | (tr, inl e) => (tr, inl e)
  | (tr, inr a) => let (tr', r) := f a in ((tr ++ tr')%list, r)
  end.

(** [try { m } catch (e) { h e }] *)
Definition try_catch {A} (m : M A) (h : Thrown -> M A) : M A :=
  match m with
  | (tr, inl e) => let (tr', r) := h e in ((tr ++ tr')%list, r)
  | (tr, inr a) => (tr, inr a)
  end.

Notation "x <- m ;; k" := (bind m (fun x => k))
  (at level 61, m at next level, right associativity).
Notation "m ;;; k" := (bind m (fun _ => k))
  (at level 61, right associativity).

(** *** The environment *)

(** The body stream behind [reader.read()]: the texts
    [decoder.decode(value)] gives for the successive reads, then either
    [done] ([None]) or a rejected read. *)
Record BodyStream : Type := {
  reads : list string;
  ending : option Thrown
}.

Record Response : Type := {
  ok : bool;
  status : N;
  text : Thrown + string;
  body : option BodyStream
}.

Inductive FetchOutcome : Type :=
| FetchRejects (e : Thrown)
| FetchResolves (r : Response).

(** The SDK: [getGeminiClient], then [chats.create] and
    [sendMessageStream], whose stream yields chunks with an optional
    [text]. *)
Record GeminiStream : Type := {
  chunks : list (option string);
  failure : option Thrown
}.

Record GeminiEnv : Type := {
  getGeminiClient : option Thrown;
  sendMessageStream : Thrown + GeminiStream;
  (** the message the engine gives the TypeError of [lastMessage.image]
      read off [undefined] *)
  undefinedMessage : string
}.

Record Env : Type := {
  fetch : FetchOutcome;
  gemini : GeminiEnv;
  generateContent : Thrown + option string
}.

(** A TypeError raised inside the stream loop's [try]: the [catch] there
    drops it, so its message, which is the engine's, is never read. *)
Definition TypeError : Thrown := ErrorObject "TypeError".

(** [fullText += content]: the string form of the content, or a throw. *)
Definition stringOf (content : JSON.t) : Thrown + string :=
  match JSON.ToString content with
  | Some s => inr s
  | None => inl TypeError
  end.

(** *** Reading [data.choices[0]?.delta?.content] off an [any] value.
    [None] is [undefined]. *)

(** [v.k] for [k] one of [choices], [delta], [content]. *)
Definition prop (k : string) (v : option JSON.t) : Thrown + option JSON.t :=
  match v with
  | None | Some JSON.Null => inl TypeError
  | Some (JSON.Object ms) => inr (JSON.lookup k ms)
  | Some _ => inr None
  end.

(** [v[0]] *)
Definition index0 (v : option JSON.t) : Thrown + option JSON.t :=
  match v with
  | None | Some JSON.Null => inl TypeError
  | Some (JSON.Array l) => inr (hd_error l)
  | Some (JSON.Str (String c _)) => inr (Some (JSON.Str (String c EmptyString)))
  | Some (JSON.Object ms) => inr (JSON.lookup "0" ms)
  | Some _ => inr None
  end.

(** [v?.k] *)
Definition optProp (k : string) (v : option JSON.t) : option JSON.t :=
  match v with
  | None | Some JSON.Null => None
  | Some (JSON.Object ms) => JSON.lookup k ms
  | Some _ => None
  end.

(** [x || ''] *)
Definition orEmpty (v : option JSON.t) : JSON.t :=
  match v with
  | Some w => if JSON.truthy w then w else JSON.Str ""
  | None => JSON.Str ""
  end.

Definition lift {A} (r : Thrown + A) : M A := ([], r).

Definition deltaContent (data : JSON.t) : M JSON.t :=
  choices <- lift (prop "choices" (Some data)) ;;
  first <- lift (index0 choices) ;;
  ret (orEmpty (optProp "content" (optProp "delta" first))).

Section Adapter.

(** [JSON.parse]; [None] where it throws. *)
Variable JSON_parse : string -> option JSON.t.

Definition parseJSON (s : string) : M JSON.t :=
  match JSON_parse s with
  | Some v => ret v
  | None => throw (ErrorObject "SyntaxError")
  end.

(** Lines 201-212: one [data: ] line; the result is [fullText] after it. *)
Definition dataLine (line fullText : string) : M string :=
  try_catch
    (data <- parseJSON (JS.slice 6 line) ;;
     content <- deltaContent data ;;
     if JSON.truthy content then
       added <- lift (stringOf content) ;;
       emit (OnChunk added) ;;;
       ret (fullText ++ added)
     else ret fullText)
    (fun _ => ret fullText).

(** How the [for] loop over the lines of a read ends. *)
Inductive Ctl : Type :=
| Continue (fullText : string)
| Return.

(** Lines 199-213. *)
Fixpoint forLines (lines : list string) (fullText : string) : M Ctl :=
  match lines with
  | [] => ret (Continue fullText)
  | line :: rest =>
      if JS.includes "[DONE]" line then
        emit (OnComplete fullText) ;;; ret Return
      else if JS.startsWith "data: " line then
        fullText' <- dataLine line fullText ;;
        forLines rest fullText'
      else forLines rest fullText
  end.

(** Line 197: [chunk.split('\n').filter(line => line.trim() !== '')] *)
Definition linesOf (chunk : string) : list string :=
  filter (fun line => negb (JS.trim line =? "")%string) (JS.split JS.LF chunk).

(** Lines 192-215: the [while] loop over the reads and what follows it. *)
Fixpoint readLoop (rs : list string) (fin : option Thrown) (fullText : string)
  : M unit :=
  match rs with
  | [] =>
      match fin with
      | Some e => throw e
      | None => emit (OnComplete fullText)
      end
  | chunk :: rest =>
      ctl <- forLines (linesOf chunk) fullText ;;
      match ctl with
      | Return => ret tt
      | Continue fullText' => readLoop rest fin fullText'
      end
  end.

(** Lines 156-167: one conversation message in the request body. *)
Definition payloadMessage (provider : ModelProvider) (m : Message.t) : JSON.t :=
  match Message.image m with
  | Some img =>
      if negb (JS.falsy img) && ModelProvider_eqb provider OpenAI then
        JSON.Object
          [("role", JSON.Str (roleName (Message.role m)));
           ("content",
            JSON.Array
              [JSON.Object [("type", JSON.Str "text");
                            ("text", JSON.Str (Message.content m))];
               JSON.Object [("type", JSON.Str "image_url");
                            ("image_url", JSON.Object [("url", JSON.Str img)])]])]
      else
        JSON.Object [("role", JSON.Str (roleName (Message.role m)));
                     ("content", JSON.Str (Message.content m))]
  | None =>
      JSON.Object [("role", JSON.Str (roleName (Message.role m)));
                   ("content", JSON.Str (Message.content m))]
  end.

Definition baseUrl (provider : ModelProvider) : string :=
  match provider with
  | DeepSeek => "https://api.deepseek.com"
  | _ => "https://api.openai.com/v1"
  end.

Definition modelName (provider : ModelProvider) : string :=
  match provider with
  | DeepSeek => "deepseek-chat"
  | _ => "gpt-4o-mini"
  end.

Definition payload (messages : list Message.t) (provider : ModelProvider)
           (instruction : string) : JSON.t :=
  JSON.Object
    [("model", JSON.Str (modelName provider));
     ("messages",
      JSON.Array
        (JSON.Object [("role", JSON.Str "system");
                      ("content", JSON.Str instruction)]
         :: map (payloadMessage provider) messages));
     ("stream", JSON.Bool true)].

(** Lines 137-216.  The request body is the JSON text of [payload]. *)
Definition streamStandardOpenAI (net : FetchOutcome) (messages : list Message.t)
           (apiKey : string) (provider : ModelProvider) (instruction : string)
  : M unit :=
  emit (Fetch (baseUrl provider ++ "/chat/completions")
              ("Bearer " ++ apiKey)
              (payload messages provider instruction)) ;;;
  match net with
  | FetchRejects e => throw e
  | FetchResolves response =>
      if negb (ok response) then
        err <- lift (text response) ;;
        throw (ErrorObject
                 ("API Error " ++ JS.toString (status response) ++ ": " ++ err))
      else
        match body response with
        | None => throw (ErrorObject "No response body")
        | Some reader => readLoop (reads reader) (ending reader) ""
        end
  end.

(** Lines 122-130: the [for await] loop over the SDK's chunks. *)
Fixpoint geminiLoop (cs : list (option string)) (fin : option Thrown)
         (fullText : string) : M unit :=
  match cs with
  | [] =>
      match fin with
      | Some e => throw e
      | None => emit (OnComplete fullText)
      end
  | c :: rest =>
      if truthy_opt c then
        let text := match c with Some s => s | None => "" end in
        emit (OnChunk text) ;;; geminiLoop rest fin (fullText ++ text)
      else geminiLoop rest fin fullText
  end.

(** Lines 84-135.  [lastMessage.image] throws on an empty conversation,
    before the chat is created. *)
Definition streamGemini (sdk : GeminiEnv) (messages : list Message.t)
           (instruction : string) : M unit :=
  match getGeminiClient sdk with
  | Some e => throw e
  | None =>
      match GeminiRequest.newParts messages with
      | None => throw (ErrorObject (undefinedMessage sdk))
      | Some newParts =>
          emit (SdkSend instruction (GeminiRequest.history messages) newParts) ;;;
          result <- lift (sendMessageStream sdk) ;;
          geminiLoop (chunks result) (failure result) ""
      end
  end.

(** Lines 60-82. *)
Definition streamResponse (env : Env) (messages : list Message.t)
           (settings : AppSettings) : M unit :=
  try_catch
    (match activeModel settings with
     | Gemini => streamGemini (gemini env) messages (systemInstruction settings)
     | provider =>
         match apiKeys settings provider with
         | Some apiKey =>
             if JS.falsy apiKey then
               emit (OnError ("Please provide an API key for "
                              ++ providerName provider ++ " in Settings."))
             else
               streamStandardOpenAI (fetch env) messages apiKey provider
                                    (systemInstruction settings)
         | None =>
             emit (OnError ("Please provide an API key for "
                            ++ providerName provider ++ " in Settings."))
         end
     end)
    (fun error =>
       emit (OnError (match error with
                      | ErrorObject message => message
                      | OtherValue => "Unknown error occurred"
                      end))).

(** Lines 35-58.  The heuristic title of the providers without a title
    call, and the fallback of the Gemini call. *)
Definition generateTitle (env : Env) (firstMessage : string)
           (provider : ModelProvider) : string :=
  match provider with
  | Gemini =>
      match getGeminiClient (gemini env), generateContent env with
      | None, inr (Some t) =>
          if JS.falsy (JS.trim t) then "New Chat" else JS.trim t
      | _, _ => "New Chat"
      end
  | _ => JS.join " " (firstn 4 (JS.split " " firstMessage)) ++ "..."
  end.

End Adapter.

End AIService.

(** ** src/App.tsx: the session store and the turn handler *)
Module App.

(** The component's state.  A state update is applied where the source
    requests it: between two events the component has rendered, so the
    [sessions] a handler closes over is the current one. *)
Record State : Type := {
  sessions : list ChatSession.t;
  currentSessionId : option string;
  settings : AppSettings;
  isLoading : bool
}.

Definition setSessions (f : list ChatSession.t -> list ChatSession.t)
           (st : State) : State :=
  {| sessions := f (sessions st);
     currentSessionId := currentSessionId st;
     settings := settings st;
     isLoading := isLoading st |}.

Definition setCurrentSessionId (c : option string) (st : State) : State :=
  {| sessions := sessions st;
     currentSessionId := c;
     settings := settings st;
     isLoading := isLoading st |}.

Definition setIsLoading (b : bool) (st : State) : State :=
  {| sessions := sessions st;
     currentSessionId := currentSessionId st;
     settings := settings st;
     isLoading := b |}.

(** [{ ...s, messages }], [{ ...s, messages, updatedAt }], [{ ...s, title }] *)
Definition withMessages (s : ChatSession.t) (ms : list Message.t) : ChatSession.t :=
  ChatSession.mk (ChatSession.id s) (ChatSession.title s) ms
                 (ChatSession.createdAt s) (ChatSession.updatedAt s)
                 (ChatSession.model s).

Definition withUpdatedAt (s : ChatSession.t) (t : N) : ChatSession.t :=
  ChatSession.mk (ChatSession.id s) (ChatSession.title s) (ChatSession.messages s)
                 (ChatSession.createdAt s) t (ChatSession.model s).

Definition withTitle (s : ChatSession.t) (title : string) : ChatSession.t :=
  ChatSession.mk (ChatSession.id s) title (ChatSession.messages s)
                 (ChatSession.createdAt s) (ChatSession.updatedAt s)
                 (ChatSession.model s).

(** [prev.map(s => s.id === id ? f(s) : s)], the shape of every update of
    the turn handler. *)
Definition mapSession (id : string) (f : ChatSession.t -> ChatSession.t)
           (prev : list ChatSession.t) : list ChatSession.t :=
  map (fun s => if (ChatSession.id s =? id)%string then f s else s) prev.

(** [sessions.find(s => s.id === id)] *)
Definition findSession (id : string) (l : list ChatSession.t) : option ChatSession.t :=
  find (fun s => (ChatSession.id s =? id)%string) l.

(** [const target = newMsgs.find(m => m.id === id); if (target) mutate(target)]:
    the first message of that id is changed in place.  The change is this
    update of the list as long as no other session holds the same object.
    Objects are shared only among sessions of one id: [handleSendMessage]
    appends its one placeholder object to every session of the selected
    id, so where two sessions have the turn's id the source changes their
    common placeholder once for each of them.  What is stated below of the
    content a chunk leaves is stated for a turn whose id one session has. *)
Fixpoint mutateFound (id : string) (mutate : Message.t -> Message.t)
         (msgs : list Message.t) : list Message.t :=
  match msgs with
  | [] => []
  | m :: rest =>
      if (Message.id m =? id)%string then mutate m :: rest
      else m :: mutateFound id mutate rest
  end.

(** Lines 64-76; the three [Date.now()] readings in order. *)
Definition createNewChat (tId tCreated tUpdated : N) (st : State) : State :=
  let newSession :=
    ChatSession.mk (JS.toString tId) "New Chat" [] tCreated tUpdated
                   (activeModel (settings st)) in
  setCurrentSessionId (Some (ChatSession.id newSession))
    (setSessions (fun prev => newSession :: prev) st).

(** Lines 78-86. *)
Definition deleteChat (id : string) (tId tCreated tUpdated : N) (st : State) : State :=
  let newSessions :=
    filter (fun s => negb (ChatSession.id s =? id)%string) (sessions st) in
  let st1 := setSessions (fun _ => newSessions) st in
  match currentSessionId st with
  | Some cur =>
      if (cur =? id)%string then
        let next :=
          match newSessions with
          | s :: _ => if JS.falsy (ChatSession.id s) then None
                      else Some (ChatSession.id s)
          | [] => None
          end in
        let st2 := setCurrentSessionId next st1 in
        match newSessions with
        | [] => createNewChat tId tCreated tUpdated st2
        | _ :: _ => st2
        end
      else st1
  | None => st1
  end.

(** Selecting a session in the sidebar (line 199). *)
Definition selectSession (id : string) (st : State) : State :=
  setCurrentSessionId (Some id) st.

(** What the callbacks of one [handleSendMessage] call close over. *)
Record Turn : Type := {
  sessionId : string;
  aiMsgId : string;
  contextMessages : list Message.t;
  text : string;
  turnSettings : AppSettings
}.

(** The [Date.now()] readings of [handleSendMessage], in source order:
    lines 93, 96, 102, 110 and 115. *)
Record SendClock : Type := {
  tUserId : N;
  tUserTimestamp : N;
  tUpdatedAt : N;
  tAiId : N;
  tAiTimestamp : N
}.

(** Lines 88-128: the state after the three updates, and the turn whose
    [streamResponse] call is started, if any. *)
Definition handleSendMessage (clk : SendClock) (text : string)
           (image : option string) (st : State) : State * option Turn :=
  match currentSessionId st with
  | None => (st, None)
  | Some cur =>
      if JS.falsy cur then (st, None)
      else
        let userMsg :=
          Message.mk (JS.toString (tUserId clk)) user text
                     (tUserTimestamp clk) image None in
        let st1 :=
          setSessions
            (mapSession cur (fun s =>
               withUpdatedAt
                 (withMessages s (ChatSession.messages s ++ [userMsg]))
                 (tUpdatedAt clk))) st in
        let st2 := setIsLoading true st1 in
        let aiMsgId := JS.toString (tAiId clk + 1) in
        let aiMsgPlaceholder :=
          Message.mk aiMsgId model "" (tAiTimestamp clk) None None in
        let st3 :=
          setSessions
            (mapSession cur (fun s =>
               withMessages s (ChatSession.messages s ++ [aiMsgPlaceholder]))) st2 in
        let sessionMessages :=
          match findSession cur (sessions st) with
          | Some s => ChatSession.messages s
          | None => []
          end in
        (st3, Some {| sessionId := cur;
                      aiMsgId := aiMsgId;
                      contextMessages := sessionMessages ++ [userMsg];
                      text := text;
                      turnSettings := settings st |})
  end.

Definition appendContent (chunk : string) (m : Message.t) : Message.t :=
  Message.mk (Message.id m) (Message.role m) (Message.content m ++ chunk)
             (Message.timestamp m) (Message.image m) (Message.isError m).

Definition markError (message : string) (m : Message.t) : Message.t :=
  Message.mk (Message.id m) (Message.role m) ("Error: " ++ message)
             (Message.timestamp m) (Message.image m) (Some true).

(** Lines 130-140. *)
Definition onChunk (turn : Turn) (chunk : string) (st : State) : State :=
  setSessions
    (mapSession (sessionId turn) (fun s =>
       withMessages s
         (mutateFound (aiMsgId turn) (appendContent chunk) (ChatSession.messages s))))
    st.

(** Line 144: the [generateTitle] call of a completed turn, if any. *)
Definition titleCall (turn : Turn) : option (string * ModelProvider) :=
  if (List.length (contextMessages turn) <=? 1)%nat
  then Some (text turn, activeModel (turnSettings turn))
  else None.

(** Lines 141-145: the state after [setIsLoading(false)] and the
    [generateTitle] call made. *)
Definition onComplete (turn : Turn) (st : State)
  : State * option (string * ModelProvider) :=
  (setIsLoading false st, titleCall turn).

(** Line 146: the update made when [generateTitle] resolves. *)
Definition onTitle (turn : Turn) (title : string) (st : State) : State :=
  setSessions (mapSession (sessionId turn) (fun s => withTitle s title)) st.

(** Lines 149-163. *)
Definition onError (turn : Turn) (message : string) (st : State) : State :=
  setSessions
    (mapSession (sessionId turn) (fun s =>
       withMessages s
         (mutateFound (aiMsgId turn) (markError message) (ChatSession.messages s))))
    (setIsLoading false st).

(** One event of a [streamResponse] trace reaching the store; a title is
    applied as soon as it is asked for. *)
Definition deliver1 (env : AIService.Env) (turn : Turn) (ev : AIService.Event)
           (acc : State * list (string * ModelProvider))
  : State * list (string * ModelProvider) :=
  let (st, calls) := acc in
  match ev with
  | AIService.OnChunk chunk => (onChunk turn chunk st, calls)
  | AIService.OnComplete _ =>
      match onComplete turn st with
      | (st', Some (first, provider)) =>
          (onTitle turn (AIService.generateTitle env first provider) st',
           (calls ++ [(first, provider)])%list)
      | (st', None) => (st', calls)
      end
  | AIService.OnError message => (onError turn message st, calls)
  | AIService.Fetch _ _ _ | AIService.SdkSend _ _ _ => (st, calls)
  end.

(** A whole trace: the final state and the [generateTitle] calls made. *)
Definition deliver (env : AIService.Env) (turn : Turn)
           (trace : list AIService.Event) (st : State)
  : State * list (string * ModelProvider) :=
  fold_left (fun acc ev => deliver1 env turn ev acc) trace (st, []).

(** The chunks of a trace applied in order. *)
Definition applyChunks (turn : Turn) (chunks : list string) (st : State) : State :=
  fold_left (fun s c => onChunk turn c s) chunks st.

(** The content of the message the turn's callbacks look up. *)
Definition placeholderContent (turn : Turn) (st : State) : option string :=
  match findSession (sessionId turn) (sessions st) with
  | Some s =>
      match find (fun m => (Message.id m =? aiMsgId turn)%string)
                 (ChatSession.messages s) with
      | Some m => Some (Message.content m)
      | None => None
      end
  | None => None
  end.

End App.

(** ** src/components/ChatComponents.tsx: [ChatInput] *)
Module ChatInput.

(** The input's own state: the text typed and the image attached
    ([null] is [None]). *)
Record Input : Type := {
  text : string;
  image : option string
}.

(** Lines 135-141, with [onSend] bound to [App.handleSendMessage] and
    [isLoading] to the component's flag (App.tsx line 298). *)
Definition handleSend (clk : App.SendClock) (input : Input) (st : App.State)
  : Input * (App.State * option App.Turn) :=
  if (JS.falsy (JS.trim (text input)) && negb (truthy_opt (image input)))
     || App.isLoading st
  then (input, (st, None))
  else ({| text := ""; image := None |},
        App.handleSendMessage clk (text input)
          (if truthy_opt (image input) then image input else None) st).

End ChatInput.

(** * Vocabulary of the properties *)

(** ** Traces of the adapters *)
Module Traces.
Import AIService.

(** The callback invocations of a trace, requests left out. *)
Definition isCallback (ev : Event) : bool :=
  match ev with
  | OnChunk _ | OnComplete _ | OnError _ => true
  | Fetch _ _ _ | SdkSend _ _ _ => false
  end.

Definition callbacks (trace : list Event) : list Event := filter isCallback trace.

(** The message of the error a caught value is reported as: the value's
    own if it is an [Error]. *)
Definition describe (error : Thrown) : string :=
  match error with
  | ErrorObject message => message
  | OtherValue => "Unknown error occurred"
  end.

(** The concatenation [c1 + ... + cn]. *)
Definition concatAll (cs : list string) : string := String.concat "" cs.

(** What an adapter does before the normalizer's [catch]: requests, then
    chunks, then completion with the chunks' concatenation or a throw. *)
Definition adapterShape (m : M unit) : Prop :=
  exists rq cs,
    callbacks rq = [] /\
    (m = ((rq ++ map OnChunk cs ++ [OnComplete (concatAll cs)])%list, inr tt) \/
     exists e, m = ((rq ++ map OnChunk cs)%list, inl e)).

(** A line holds no line feed. *)
Fixpoint singleLine (s : string) : bool :=
  match s with
  | EmptyString => true
  | String c s' => negb (Ascii.eqb c JS.LF) && singleLine s'
  end.

(** The text of a read made of whole lines, each ended by a line feed. *)
Definition unlines (ls : list string) : string :=
  concatAll (map (fun l => l ++ String JS.LF EmptyString) ls).

Definition nonblank (line : string) : bool := negb (JS.trim line =? "")%string.

(** What a line free of the text of the end marker holds for the loop:
    [Some d] for a data line whose payload parses to a value with the
    string [d] at [choices[0].delta.content], [None] for a line that is
    no data line or whose payload [JSON.parse] refuses. *)
Definition yields (JSON_parse : string -> option JSON.t)
           (line : string) (o : option string) : Prop :=
  JS.includes "[DONE]" line = false /\
  match o with
  | Some d =>
      JS.startsWith "data: " line = true /\
      exists data choices first,
        JSON_parse (JS.slice 6 line) = Some data /\
        prop "choices" (Some data) = inr choices /\
        index0 choices = inr first /\
        optProp "content" (optProp "delta" first) = Some (JSON.Str d)
  | None =>
      JS.startsWith "data: " line = false \/ JSON_parse (JS.slice 6 line) = None
  end.

(** The texts that are there and not empty. *)
Fixpoint texts (cs : list (option string)) : list string :=
  match cs with
  | [] => []
  | Some s :: rest => if JS.falsy s then texts rest else s :: texts rest
  | None :: rest => texts rest
  end.

(** A [for] loop, then the rest of the adapter unless the loop returned. *)
Definition thenLoop (m : M Ctl) (k : string -> M unit) : M unit :=
  ctl <- m ;;
  match ctl with
  | Return => ret tt
  | Continue fullText => k fullText
  end.

End Traces.

(** ** The store between the events of a turn *)
Module Stores.
Import App.

(** [msgs.findIndex(m => m.id === id)] *)
Fixpoint findIndex (id : string) (msgs : list Message.t) : option nat :=
  match msgs with
  | [] => None
  | m :: rest =>
      if (Message.id m =? id)%string then Some 0
      else option_map S (findIndex id rest)
  end.

(** At most one session of the store has the id. *)
Definition oneSession (id : string) (l : list ChatSession.t) : Prop :=
  List.length (filter (fun s => (ChatSession.id s =? id)%string) l) <= 1.

(** No session of the store has the id. *)
Definition absent (id : string) (l : list ChatSession.t) : Prop :=
  forall s, In s l -> ChatSession.id s <> id.

(** The text is empty or made of white space only. *)
Fixpoint allWhiteSpace (s : string) : bool :=
  match s with
  | EmptyString => true
  | String c s' => JS.isWhiteSpace c && allWhiteSpace s'
  end.


(** What can happen to the store between two events of a turn. *)
Inductive Action : Type :=
| Send (clk : SendClock) (text : string) (image : option string)
| Chunk (turn : Turn) (chunk : string)
| Complete (turn : Turn)
| Title (turn : Turn) (title : string)
| Error (turn : Turn) (message : string)
| Select (id : string)
| Delete (id : string) (tId tCreated tUpdated : N)
| New (tId tCreated tUpdated : N).

Definition step (a : Action) (st : State) : State :=
  match a with
  | Send clk text image => fst (handleSendMessage clk text image st)
  | Chunk turn chunk => onChunk turn chunk st
  | Complete turn => fst (onComplete turn st)
  | Title turn title => onTitle turn title st
  | Error turn message => onError turn message st
  | Select id => selectSession id st
  | Delete id tId tCreated tUpdated => deleteChat id tId tCreated tUpdated st
  | New tId tCreated tUpdated => createNewChat tId tCreated tUpdated st
  end.

Definition run (actions : list Action) (st : State) : State :=
  fold_left (fun s a => step a s) actions st.

(** The action creates no session of the id [sid]. *)
Definition keepsId (sid : string) (a : Action) : Prop :=
  match a with
  | Delete _ tId _ _ | New tId _ _ => JS.toString tId <> sid
  | _ => True
  end.


(** [deliver] from any pair of a state and the calls made so far. *)
Definition deliverAll (env : AIService.Env) (turn : Turn)
  : list AIService.Event -> State * list (string * ModelProvider)
    -> State * list (string * ModelProvider) :=
  fold_left (fun acc ev => deliver1 env turn ev acc).

End Stores.

(** ** Data of the closed instances *)
Module Examples.
Import AIService App Traces Stores.

Definition LF : string := String JS.LF EmptyString.

(** A text written with ['] where it has a double quote. *)
Fixpoint quoted (s : string) : string :=
  match s with
  | EmptyString => EmptyString
  | String c r => String (if (c =? "'")%char then JS.quote else c) (quoted r)
  end.

Definition hiFrame : string :=
  quoted "data: {'choices':[{'delta':{'content':'Hi'}}]}".

Definition doneFrame : string := "data: [DONE]".



(** A response of status 200 whose body arrives as the given reads. *)
Definition okResponse (rs : list string) : FetchOutcome :=
  FetchResolves {| ok := true; status := 200; AIService.text := inr "";
                   body := Some {| reads := rs; ending := None |} |}.

Definition envOf (net : FetchOutcome) : Env :=
  {| fetch := net;
     gemini := {| getGeminiClient := None;
                  sendMessageStream := inr {| chunks := []; failure := None |};
                  undefinedMessage := "Cannot read properties of undefined (reading 'image')" |};
     generateContent := inr None |}.

Definition settingsOf (provider : ModelProvider) (key : option string) : AppSettings :=
  {| apiKeys := fun p => if ModelProvider_eqb p provider then key else None;
     systemInstruction := "You are Lyra.";
     activeModel := provider;
     profile := {| name := "User"; avatarUrl := None |};
     darkMode := true;
     enterToSend := true |}.

Definition session1 : ChatSession.t :=
  ChatSession.mk "1700000000000" "New Chat" [] 1700000000000 1700000000000 OpenAI.

Definition session2 : ChatSession.t :=
  ChatSession.mk "1690000000000" "Earlier"
    [Message.mk "1690000000001" user "Hello" 1690000000001 None None;
     Message.mk "1690000000003" model "Hi there" 1690000000002 None None]
    1690000000000 1690000000002 OpenAI.

Definition state0 : State :=
  {| sessions := [session1; session2];
     currentSessionId := Some "1700000000000";
     settings := settingsOf OpenAI (Some "sk-test");
     isLoading := false |}.

Definition clock1 : SendClock :=
  {| tUserId := 1700000001000; tUserTimestamp := 1700000001000;
     tUpdatedAt := 1700000001000; tAiId := 1700000001000;
     tAiTimestamp := 1700000001000 |}.

(** The turn of the first send into [session1] and the state it leaves. *)
Definition turn1 : Turn :=
  {| sessionId := "1700000000000";
     aiMsgId := "1700000001001";
     contextMessages :=
       [Message.mk "1700000001000" user "Hello" 1700000001000 None None];
     App.text := "Hello";
     turnSettings := settingsOf OpenAI (Some "sk-test") |}.

Definition state1 : State := fst (handleSendMessage clock1 "Hello" None state0).

(** The store after the trace of [streamResponse] over the given reads
    has reached [turn1]'s callbacks. *)
Definition afterStream (rs : list string) : State :=
  let env := envOf (okResponse rs) in
  fst (deliver env turn1
         (fst (streamResponse JSONText.parse env (contextMessages turn1)
                              (turnSettings turn1)))
         state1).

(** One body, read whole and read with the first frame cut in two. *)
Definition wholeReads : list string := [hiFrame ++ LF ++ doneFrame ++ LF].


(** A frame whose delta text holds the characters of the end marker. *)
Definition markerFrame : string :=
  quoted "data: {'choices':[{'delta':{'content':'Type [DONE] to finish'}}]}".

Definition streamOf (rs : list string) : M unit :=
  streamResponse JSONText.parse (envOf (okResponse rs)) (contextMessages turn1)
                 (turnSettings turn1).

(** The user deletes the session [turn1] streams into, then looks at the
    other session and opens a new one. *)
Definition actions2 : list Action :=
  [Select "1690000000000"; New 1700000003000 1700000003000 1700000003000].

Definition state2 : State :=
  run actions2
      (deleteChat (sessionId turn1) 1700000002000 1700000002000 1700000002000 state1).

Definition placeholder1 : Message.t :=
  Message.mk "1700000001001" model "" 1700000001000 None None.

Definition streaming1 : ChatSession.t :=
  ChatSession.mk "1700000000000" "New Chat"
    [Message.mk "1700000001000" user "Hello" 1700000001000 None None; placeholder1]
    1700000000000 1700000001000 OpenAI.

End Examples.

(** * The code around the claims *)

(** ** types.ts and App.tsx: defaults, the load effect, the settings form *)
Module AppShell.
Import App.

Definition LF : string := String JS.LF EmptyString.

(** types.ts lines 43-47. *)
Definition DEFAULT_SYSTEM_INSTRUCTION : string :=
  "You are Lyra, a friendly, intelligent, and witty AI companion. " ++ LF ++
  "You answer clearly and concisely. " ++ LF ++
  "You care about the user's well-being and productivity." ++ LF ++
  "When relevant, format your answers with Markdown.".

(** types.ts lines 49-58. *)
Definition DEFAULT_SETTINGS : AppSettings :=
  {| apiKeys := fun _ => None;
     systemInstruction := DEFAULT_SYSTEM_INSTRUCTION;
     activeModel := Gemini;
     profile := {| name := "User"; avatarUrl := None |};
     darkMode := true;
     enterToSend := true |}.

Definition setSettings (x : AppSettings) (st : State) : State :=
  {| sessions := sessions st;
     currentSessionId := currentSessionId st;
     settings := x;
     isLoading := isLoading st |}.

(** Lines 16-19: the state of the first render. *)
Definition initialState : State :=
  {| sessions := [];
     currentSessionId := None;
     settings := DEFAULT_SETTINGS;
     isLoading := false |}.

(** Lines 26-40, the load effect, given what the two stored blobs decode
    to ([None]: no blob).  [createNewChat] is the closure of the first
    render: it reads the default settings, whatever was stored. *)
Definition load (savedSessions : option (list ChatSession.t))
           (savedSettings : option AppSettings)
           (tId tCreated tUpdated : N) : State :=
  let st1 :=
    match savedSessions with
    | Some l => setSessions (fun _ => l) initialState
    | None => initialState
    end in
  let st2 :=
    match savedSessions with
    | Some (s :: _) => setCurrentSessionId (Some (ChatSession.id s)) st1
    | Some [] | None => createNewChat tId tCreated tUpdated st1
    end in
  match savedSettings with
  | Some x => setSettings x st2
  | None => st2
  end.

(** Line 62: [sessions.find(s => s.id === currentSessionId)]. *)
Definition currentSession (st : State) : option ChatSession.t :=
  match currentSessionId st with
  | Some cur => findSession cur (sessions st)
  | None => None
  end.

(** Line 266: the suggestion buttons are shown. *)
Definition showsSuggestions (st : State) : bool :=
  match currentSession st with
  | Some s => match ChatSession.messages s with [] => true | _ :: _ => false end
  | None => false
  end.

(** Line 277: a suggestion button clicked. *)
Definition clickSuggestion (clk : SendClock) (q : string) (st : State)
  : State * option Turn :=
  handleSendMessage clk q None st.

(** Lines 349-352: [{...settings, apiKeys: {...settings.apiKeys, [provider]: value}}] *)
Definition setApiKey (provider : ModelProvider) (value : string)
           (x : AppSettings) : AppSettings :=
  {| apiKeys := fun p => if ModelProvider_eqb p provider then Some value
                         else apiKeys x p;
     systemInstruction := systemInstruction x;
     activeModel := activeModel x;
     profile := profile x;
     darkMode := darkMode x;
     enterToSend := enterToSend x |}.

(** Line 372: [{...settings, activeModel: m}] *)
Definition setActiveModel (m : ModelProvider) (x : AppSettings) : AppSettings :=
  {| apiKeys := apiKeys x;
     systemInstruction := systemInstruction x;
     activeModel := m;
     profile := profile x;
     darkMode := darkMode x;
     enterToSend := enterToSend x |}.

End AppShell.

(** ** ChatComponents.tsx: the rest of [ChatInput] *)
Module ChatInputKeys.

Record KeyEvent : Type := {
  key : string;
  shiftKey : bool
}.

(** Lines 143-148, with the [enterToSend] prop bound to the setting
    (App.tsx line 298). *)
Definition handleKeyDown (e : KeyEvent) (clk : App.SendClock)
           (input : ChatInput.Input) (st : App.State)
  : ChatInput.Input * (App.State * option App.Turn) :=
  if enterToSend (App.settings st) && (key e =? "Enter")%string && negb (shiftKey e)
  then ChatInput.handleSend clk input st
  else (input, (st, None)).

(** Line 176: [prev + (prev ? ' ' : '') + transcript], the text after a
    recognition result. *)
Definition onresult (prev transcript : string) : string :=
  prev ++ (if JS.falsy prev then "" else " ") ++ transcript.

End ChatInputKeys.

(** ** Vocabulary of the further properties *)
Module Shapes.
Import AIService App Traces Stores.

Definition isFetch (ev : Event) : bool :=
  match ev with Fetch _ _ _ => true | _ => false end.

Definition isSdkSend (ev : Event) : bool :=
  match ev with SdkSend _ _ _ => true | _ => false end.

(** A data line of the given payload. *)
Definition frame (payload : string) : string := "data: " ++ payload.

(** The selected session is in the store and every session has an id. *)
Definition selectedExists (st : State) : Prop :=
  (exists cur s, currentSessionId st = Some cur /\
                 findSession cur (sessions st) = Some s) /\
  (forall s, In s (sessions st) -> ChatSession.id s <> "").

(** An action the user interface offers in the state: the session
    selected is one of the list shown. *)
Definition offered (st : State) (a : Action) : Prop :=
  match a with
  | Select id => exists s, In s (sessions st) /\ ChatSession.id s = id
  | _ => True
  end.

(** The two messages a send appends. *)
Definition userMsgOf (clk : SendClock) (text : string) (image : option string)
  : Message.t :=
  Message.mk (JS.toString (tUserId clk)) user text (tUserTimestamp clk) image None.

Definition placeholderOf (clk : SendClock) : Message.t :=
  Message.mk (JS.toString (tAiId clk + 1)) model "" (tAiTimestamp clk) None None.

(** The actions of a list are offered in the states they meet. *)
Fixpoint allOffered (actions : list Action) (st : State) : Prop :=
  match actions with
  | [] => True
  | a :: rest => offered st a /\ allOffered rest (step a st)
  end.

(** An action that does not end a turn. *)
Definition keepsLoading (a : Action) : bool :=
  match a with
  | Complete _ | Error _ _ => false
  | _ => true
  end.

(** The number of spaces of a text. *)
Fixpoint spaces (s : string) : nat :=
  match s with
  | EmptyString => 0
  | String c r => (if Ascii.eqb c " " then 1 else 0) + spaces r
  end.

(** A run of letters, digits and underscores. *)
Fixpoint allWord (w : string) : bool :=
  match w with
  | EmptyString => true
  | String c r => GeminiRequest.isWordChar c && allWord r
  end.

(** No message of the list has the id. *)
Definition freshId (id : string) (msgs : list Message.t) : Prop :=
  forall m, In m msgs -> Message.id m <> id.

End Shapes.

(** ** Data of the further closed instances *)
Module MoreExamples.
Import AIService App Traces Stores Shapes AppShell Examples.

Definition hiPayload : string := quoted "{'choices':[{'delta':{'content':'Hi'}}]}".

(** The first frame of a stream: a role and no text. *)
Definition rolePayload : string := quoted "{'choices':[{'delta':{'role':'assistant'}}]}".

Definition roleData : JSON.t :=
  JSON.Object
    [("choices",
      JSON.Array
        [JSON.Object [("delta", JSON.Object [("role", JSON.Str "assistant")])]])].

Definition settings1 : AppSettings := settingsOf OpenAI (Some "sk-test").

Definition deniedResponse : Response :=
  {| ok := false; status := 401; AIService.text := inr "denied"; body := None |}.

(** Two reads of whole lines, a blank line and a comment line among them,
    a frame after the end marker, and a body stream that fails at its end. *)
Definition groups1 : list (list string) :=
  [[frame hiPayload; ""; ": keep-alive"];
   [frame hiPayload; "data: [DONE]"; frame hiPayload]].

Definition framesResponse : Response :=
  {| ok := true; status := 200; AIService.text := inr "";
     body := Some {| reads := map unlines groups1; ending := Some OtherValue |} |}.

Definition geminiStream1 : GeminiStream :=
  {| chunks := [Some "He"; None; Some ""; Some "llo"]; failure := None |}.

Definition geminiEnv1 : Env :=
  {| fetch := FetchRejects OtherValue;
     gemini := {| getGeminiClient := None; sendMessageStream := inr geminiStream1;
                  undefinedMessage := "Cannot read properties of undefined (reading 'image')" |};
     generateContent := inr (Some "  Greeting  ") |}.

Definition noClientEnv : Env :=
  {| fetch := FetchRejects OtherValue;
     gemini := {| getGeminiClient := Some (ErrorObject "An API Key must be set");
                  sendMessageStream := inl OtherValue;
                  undefinedMessage := "Cannot read properties of undefined (reading 'image')" |};
     generateContent := inl OtherValue |}.

Definition input1 : ChatInput.Input :=
  {| ChatInput.text := "Hello"; ChatInput.image := None |}.

Definition actions3 : list Action :=
  [Chunk turn1 "Hi"; Select "1690000000000";
   Delete "1690000000000" 1700000004000 1700000004000 1700000004000;
   New 1700000005000 1700000005000 1700000005000].

End MoreExamples.

(** * Properties of the adapters *)
Module AIServiceFacts.
Import AIService Traces.

Lemma append_empty_r (s : string) : s ++ "" = s.
Proof. induction s as [|c s IH]; simpl; [reflexivity | now rewrite IH]. Qed.

Lemma append_assoc (a b c : string) : (a ++ b) ++ c = a ++ (b ++ c).
Proof. induction a as [|x a IH]; simpl; [reflexivity | now rewrite IH]. Qed.

Lemma concatAll_cons (c : string) (cs : list string) :
  concatAll (c :: cs) = c ++ concatAll cs.
Proof.
  unfold concatAll. destruct cs as [|d cs]; simpl.
  - now rewrite append_empty_r.
  - reflexivity.
Qed.

Lemma concatAll_app (xs ys : list string) :
  concatAll (xs ++ ys) = concatAll xs ++ concatAll ys.
Proof.
  induction xs as [|x xs IH].
  - reflexivity.
  - change ((x :: xs) ++ ys)%list with (x :: (xs ++ ys))%list.
    rewrite !concatAll_cons, IH, append_assoc. reflexivity.
Qed.

Lemma callbacks_app (t1 t2 : list Event) :
  callbacks (t1 ++ t2) = (callbacks t1 ++ callbacks t2)%list.
Proof. apply filter_app. Qed.

Lemma callbacks_chunks (cs : list string) :
  callbacks (map OnChunk cs) = map OnChunk cs.
Proof. induction cs as [|c cs IH]; simpl; [reflexivity | now rewrite IH]. Qed.

Section Loops.

Variable JSON_parse : string -> option JSON.t.

(** A data line emits nothing and keeps the text, or emits one chunk
    and appends it. *)
Lemma dataLine_cases (line fullText : string) :
  dataLine JSON_parse line fullText = ([], inr fullText) \/
  exists c, dataLine JSON_parse line fullText
            = ([OnChunk c], inr (fullText ++ c)).
Proof.
  unfold dataLine, parseJSON.
  destruct (JSON_parse (JS.slice 6 line)) as [data|]; [|left; reflexivity].
  cbv beta iota zeta delta [bind ret try_catch lift emit throw deltaContent].
  destruct (prop "choices" (Some data)) as [e|choices]; [left; reflexivity|].
  destruct (index0 choices) as [e|first]; [left; reflexivity|].
  destruct (JSON.truthy (orEmpty (optProp "content" (optProp "delta" first))));
    [|left; reflexivity].
  destruct (stringOf (orEmpty (optProp "content" (optProp "delta" first))))
    as [e|added].
  - left. reflexivity.
  - right. exists added. reflexivity.
Qed.

(** The [for] loop never throws: it emits chunks and then either goes on
    with the text grown by them or completes with it. *)
Lemma forLines_cases (lines : list string) :
  forall fullText, exists cs,
    forLines JSON_parse lines fullText
    = (map OnChunk cs, inr (Continue (fullText ++ concatAll cs))) \/
    forLines JSON_parse lines fullText
    = ((map OnChunk cs ++ [OnComplete (fullText ++ concatAll cs)])%list, inr Return).
Proof.
  induction lines as [|line rest IH]; intro fullText.
  - exists []. left. simpl. unfold ret. now rewrite append_empty_r.
  - simpl. destruct (JS.includes "[DONE]" line).
    + exists []. right. simpl. now rewrite append_empty_r.
    + destruct (JS.startsWith "data: " line); [|apply IH].
      destruct (dataLine_cases line fullText) as [E|[c E]]; rewrite E; simpl.
      * destruct (IH fullText) as [cs [H|H]]; exists cs; rewrite H; auto.
      * destruct (IH (fullText ++ c)) as [cs [H|H]]; exists (c :: cs);
          rewrite H, concatAll_cons, append_assoc; simpl; auto.
Qed.

(** The [while] loop: chunks, then completion with their concatenation,
    or chunks, then a throw. *)
Lemma readLoop_cases (rs : list string) (fin : option Thrown) :
  forall fullText, exists cs,
    readLoop JSON_parse rs fin fullText
    = ((map OnChunk cs ++ [OnComplete (fullText ++ concatAll cs)])%list, inr tt) \/
    exists e, readLoop JSON_parse rs fin fullText = (map OnChunk cs, inl e).
Proof.
  induction rs as [|chunk rest IH]; intro fullText.
  - exists []. simpl. destruct fin as [e|].
    + right. exists e. reflexivity.
    + left. unfold emit. now rewrite append_empty_r.
  - simpl.
    destruct (forLines_cases (linesOf chunk) fullText) as [cs [H|H]]; rewrite H; simpl.
    + destruct (IH (fullText ++ concatAll cs)) as [ds [K|[e K]]]; rewrite K;
        exists (cs ++ ds)%list; rewrite map_app.
      * left. rewrite concatAll_app, <- append_assoc, <- app_assoc. reflexivity.
      * right. exists e. reflexivity.
    + exists cs. left. rewrite app_nil_r. reflexivity.
Qed.

Lemma geminiLoop_cases (cs0 : list (option string)) (fin : option Thrown) :
  forall fullText, exists cs,
    geminiLoop cs0 fin fullText
    = ((map OnChunk cs ++ [OnComplete (fullText ++ concatAll cs)])%list, inr tt) \/
    exists e, geminiLoop cs0 fin fullText = (map OnChunk cs, inl e).
Proof.
  induction cs0 as [|c rest IH]; intro fullText.
  - exists []. simpl. destruct fin as [e|].
    + right. exists e. reflexivity.
    + left. unfold emit. now rewrite append_empty_r.
  - simpl. destruct (truthy_opt c); [|apply IH].
    destruct (IH (fullText ++ match c with Some s => s | None => "" end))
      as [ds [K|[e K]]]; rewrite K; simpl;
      exists (match c with Some s => s | None => "" end :: ds).
    + left. rewrite concatAll_cons, append_assoc. reflexivity.
    + right. exists e. reflexivity.
Qed.

End Loops.

Lemma throw_shape (e : Thrown) : adapterShape (throw e).
Proof. exists [], []. split; [reflexivity|]. right. exists e. reflexivity. Qed.

Lemma after_request_shape (ev : Event) (m : M unit) :
  isCallback ev = false ->
  (exists cs,
      m = ((map OnChunk cs ++ [OnComplete (concatAll cs)])%list, inr tt) \/
      exists e, m = (map OnChunk cs, inl e)) ->
  adapterShape (emit ev ;;; m).
Proof.
  intros Hev [cs [H|[e H]]]; subst m; exists [ev], cs; simpl; rewrite Hev;
    (split; [reflexivity|]).
  - left. reflexivity.
  - right. exists e. reflexivity.
Qed.

Section Normalizer.

Variable JSON_parse : string -> option JSON.t.

Lemma streamStandardOpenAI_shape net messages apiKey provider instruction :
  adapterShape
    (streamStandardOpenAI JSON_parse net messages apiKey provider instruction).
Proof.
  unfold streamStandardOpenAI. apply after_request_shape; [reflexivity|].
  destruct net as [e|response].
  - exists []. right. exists e. reflexivity.
  - destruct (ok response); simpl.
    + destruct (body response) as [reader|].
      * apply (readLoop_cases JSON_parse (reads reader) (ending reader) "").
      * exists []. right. eexists. reflexivity.
    + exists []. right. unfold lift, bind, throw.
      destruct (text response); eexists; reflexivity.
Qed.

Lemma streamGemini_shape sdk messages instruction :
  adapterShape (streamGemini sdk messages instruction).
Proof.
  unfold streamGemini. destruct (getGeminiClient sdk) as [e|]; [apply throw_shape|].
  destruct messages as [|m ms]; [apply throw_shape|].
  apply after_request_shape; [reflexivity|].
  unfold lift, bind. destruct (sendMessageStream sdk) as [e|result].
  - exists []. right. exists e. reflexivity.
  - destruct (geminiLoop_cases (chunks result) (failure result) "")
      as [cs [H|[e H]]]; rewrite H; exists cs.
    + left. reflexivity.
    + right. exists e. reflexivity.
Qed.

(** The normalizer's [catch] turns a throw into [onError]. *)
Lemma try_catch_contract (m : M unit) (describe : Thrown -> string) :
  adapterShape m ->
  exists cs terminal,
    snd (try_catch m (fun error => emit (OnError (describe error)))) = inr tt /\
    callbacks (fst (try_catch m (fun error => emit (OnError (describe error)))))
    = (map OnChunk cs ++ [terminal])%list /\
    (terminal = OnComplete (concatAll cs) \/ exists message, terminal = OnError message).
Proof.
  intros [rq [cs [Hrq [H|[e H]]]]]; subst m; simpl.
  - exists cs, (OnComplete (concatAll cs)). split; [reflexivity|]. split; [|now left].
    rewrite !callbacks_app, Hrq, callbacks_chunks. reflexivity.
  - exists cs, (OnError (describe e)). split; [reflexivity|]. split; [|right; eauto].
    rewrite !callbacks_app, Hrq, callbacks_chunks. reflexivity.
Qed.

Lemma error_only_shape (message : string) (describe : Thrown -> string) :
  exists cs terminal,
    snd (try_catch (emit (OnError message))
           (fun error => emit (OnError (describe error)))) = inr tt /\
    callbacks (fst (try_catch (emit (OnError message))
                      (fun error => emit (OnError (describe error)))))
    = (map OnChunk cs ++ [terminal])%list /\
    (terminal = OnComplete (concatAll cs) \/ exists m, terminal = OnError m).
Proof.
  exists [], (OnError message). simpl. repeat split. right. eauto.
Qed.

(** The callback contract of [streamResponse]. *)
Lemma streamResponse_contract
      (env : Env) (messages : list Message.t) (settings : AppSettings) :
  exists cs terminal,
    snd (streamResponse JSON_parse env messages settings) = inr tt /\
    callbacks (fst (streamResponse JSON_parse env messages settings))
    = (map OnChunk cs ++ [terminal])%list /\
    (terminal = OnComplete (concatAll cs) \/
     exists message, terminal = OnError message).
Proof.
  unfold streamResponse. destruct (activeModel settings).
  - apply try_catch_contract, streamGemini_shape.
  - destruct (apiKeys settings OpenAI) as [k|]; [destruct (JS.falsy k)|].
    + apply error_only_shape.
    + apply try_catch_contract, streamStandardOpenAI_shape.
    + apply error_only_shape.
  - destruct (apiKeys settings DeepSeek) as [k|]; [destruct (JS.falsy k)|].
    + apply error_only_shape.
    + apply try_catch_contract, streamStandardOpenAI_shape.
    + apply error_only_shape.
Qed.

(** C2.  Every call to [streamResponse] returns normally (no exception
    leaves it), and the callbacks it invokes are zero or more
    [onChunk] followed by exactly one terminal callback: [onComplete]
    with the concatenation of the chunks, or [onError].  An exception of
    the adapter called is caught: what the adapter did before it stays,
    one [onError] follows with the error thrown (of the message
    ["Unknown error occurred"] when the value thrown is no [Error]), and
    the call returns; an adapter that returns leaves nothing to add.  So
    a [fetch] that rejects ends the call with one [onError] of its
    error and no other callback. *)
Theorem streamResponse_exactly_one_terminal
        (env : Env) (messages : list Message.t) (settings : AppSettings) :
  (exists cs terminal,
      snd (streamResponse JSON_parse env messages settings) = inr tt /\
      callbacks (fst (streamResponse JSON_parse env messages settings))
      = (map OnChunk cs ++ [terminal])%list /\
      (terminal = OnComplete (concatAll cs) \/
       exists message, terminal = OnError message)) /\
  (forall tr r,
      activeModel settings = Gemini ->
      streamGemini (gemini env) messages (systemInstruction settings) = (tr, r) ->
      streamResponse JSON_parse env messages settings
      = match r with
        | inl e => ((tr ++ [OnError (describe e)])%list, inr tt)
        | inr _ => (tr, inr tt)
        end) /\
  (forall apiKey tr r,
      activeModel settings <> Gemini ->
      apiKeys settings (activeModel settings) = Some apiKey ->
      JS.falsy apiKey = false ->
      streamStandardOpenAI JSON_parse (fetch env) messages apiKey
                           (activeModel settings) (systemInstruction settings)
      = (tr, r) ->
      streamResponse JSON_parse env messages settings
      = match r with
        | inl e => ((tr ++ [OnError (describe e)])%list, inr tt)
        | inr _ => (tr, inr tt)
        end) /\
  (forall apiKey e,
      activeModel settings <> Gemini ->
      apiKeys settings (activeModel settings) = Some apiKey ->
      JS.falsy apiKey = false ->
      fetch env = FetchRejects e ->
      callbacks (fst (streamResponse JSON_parse env messages settings))
      = [OnError (describe e)]).
Proof.
  split; [apply streamResponse_contract|]. split; [|split].
  - intros tr r Hp H. unfold streamResponse. rewrite Hp, H.
    destruct r as [e|[]]; reflexivity.
  - intros apiKey tr r Hp Hk Hf H. unfold streamResponse.
    destruct (activeModel settings); [congruence| |];
      rewrite Hk, Hf, H; destruct r as [e|[]]; reflexivity.
  - intros apiKey e Hp Hk Hf He. unfold streamResponse, streamStandardOpenAI.
    destruct (activeModel settings); [congruence| |];
      rewrite Hk, Hf, He; reflexivity.
Qed.

(** C3.  With OpenAI or DeepSeek active and no key, or an empty key,
    configured for it, [streamResponse] does nothing but invoke
    [onError]: no chunk, and no [fetch] is issued. *)
Theorem streamResponse_missing_key
        (env : Env) (messages : list Message.t) (settings : AppSettings) :
  activeModel settings = OpenAI \/ activeModel settings = DeepSeek ->
  apiKeys settings (activeModel settings) = None \/
  apiKeys settings (activeModel settings) = Some "" ->
  streamResponse JSON_parse env messages settings
  = ([OnError ("Please provide an API key for "
               ++ providerName (activeModel settings) ++ " in Settings.")],
     inr tt).
Proof.
  intros Hp Hk. unfold streamResponse.
  destruct Hp as [Hp|Hp]; rewrite Hp in *; destruct Hk as [Hk|Hk]; rewrite Hk;
    reflexivity.
Qed.

End Normalizer.

Lemma payloadMessage_plain (x : Message.t) :
  payloadMessage DeepSeek x
  = JSON.Object [("role", JSON.Str (roleName (Message.role x)));
                 ("content", JSON.Str (Message.content x))].
Proof.
  unfold payloadMessage. destruct (Message.image x) as [img|]; [|reflexivity].
  destruct (negb (JS.falsy img)); reflexivity.
Qed.

(** C10.  With DeepSeek the request body carries every conversation
    message as an object of exactly [role] and [content], the content
    being the text: an image the message holds is left out.  With OpenAI
    a message holding a non-empty image is sent as a text part and an
    [image_url] part. *)
Theorem payload_DeepSeek_drops_image
        (messages : list Message.t) (instruction : string) (m : Message.t) :
  payload messages DeepSeek instruction
  = JSON.Object
      [("model", JSON.Str "deepseek-chat");
       ("messages",
        JSON.Array
          (JSON.Object [("role", JSON.Str "system");
                        ("content", JSON.Str instruction)]
           :: map (fun x =>
                     JSON.Object [("role", JSON.Str (roleName (Message.role x)));
                                  ("content", JSON.Str (Message.content x))])
                  messages));
       ("stream", JSON.Bool true)] /\
  forall (c : ascii) (img : string),
    payloadMessage OpenAI
      (Message.mk (Message.id m) (Message.role m) (Message.content m)
                  (Message.timestamp m) (Some (String c img)) (Message.isError m))
    = JSON.Object
        [("role", JSON.Str (roleName (Message.role m)));
         ("content",
          JSON.Array
            [JSON.Object [("type", JSON.Str "text");
                          ("text", JSON.Str (Message.content m))];
             JSON.Object [("type", JSON.Str "image_url");
                          ("image_url",
                           JSON.Object [("url", JSON.Str (String c img))])]])].
Proof.
  split.
  - unfold payload. rewrite (map_ext _ _ payloadMessage_plain). reflexivity.
  - intros c img. reflexivity.
Qed.

(** *** Reads that end at line boundaries *)

Lemma split_line (l rest : string) :
  singleLine l = true ->
  JS.split JS.LF (l ++ String JS.LF rest) = l :: JS.split JS.LF rest.
Proof.
  induction l as [|c l IH]; simpl; intro H.
  - reflexivity.
  - apply andb_prop in H. destruct H as [Hc Hl].
    apply negb_true_iff in Hc. rewrite Hc, (IH Hl). reflexivity.
Qed.

Lemma unlines_cons (l : string) (ls : list string) :
  unlines (l :: ls) = l ++ String JS.LF (unlines ls).
Proof.
  unfold unlines. simpl map. rewrite concatAll_cons, append_assoc. reflexivity.
Qed.

Lemma split_unlines (ls : list string) :
  forallb singleLine ls = true ->
  JS.split JS.LF (unlines ls) = (ls ++ [EmptyString])%list.
Proof.
  induction ls as [|l ls IH]; intro H.
  - reflexivity.
  - simpl in H. apply andb_prop in H. destruct H as [Hl Hls].
    rewrite unlines_cons, (split_line _ _ Hl), (IH Hls). reflexivity.
Qed.

Lemma linesOf_unlines (ls : list string) :
  forallb singleLine ls = true ->
  linesOf (unlines ls) = filter nonblank ls.
Proof.
  intro H. unfold linesOf. rewrite (split_unlines _ H), filter_app. simpl.
  apply app_nil_r.
Qed.

Section Framing.

Variable JSON_parse : string -> option JSON.t.

Lemma thenLoop_ext (m : M Ctl) (k1 k2 : string -> M unit) :
  (forall fullText, k1 fullText = k2 fullText) ->
  thenLoop m k1 = thenLoop m k2.
Proof.
  intro H. unfold thenLoop, bind. destruct m as [tr [e|[fullText|]]];
    [reflexivity| rewrite H; reflexivity | reflexivity].
Qed.

Lemma thenLoop_ret (fullText : string) (k : string -> M unit) :
  thenLoop (ret (Continue fullText)) k = k fullText.
Proof. unfold thenLoop, bind, ret. destruct (k fullText). reflexivity. Qed.

Lemma bind_ext {A B} (m : M A) (f g : A -> M B) :
  (forall a, f a = g a) -> bind m f = bind m g.
Proof.
  intro H. unfold bind. destruct m as [tr [e|a]]; [reflexivity|].
  rewrite H. reflexivity.
Qed.

(** What follows a loop that begins with a data line follows the rest of
    that loop. *)
Lemma thenLoop_bind (m : M string) (f : string -> M Ctl) (k : string -> M unit) :
  thenLoop (bind m f) k = bind m (fun fullText => thenLoop (f fullText) k).
Proof.
  unfold thenLoop, bind. destruct m as [tr [e|fullText]]; [reflexivity|].
  destruct (f fullText) as [t1 [e1|[fullText'|]]]; try reflexivity.
  - destruct (k fullText') as [t2 r2]. rewrite app_assoc. reflexivity.
  - unfold ret. rewrite app_assoc. reflexivity.
Qed.

(** Running the loop over [l1 ++ l2] is running it over [l1] and, unless
    it returned, over [l2]. *)
Lemma forLines_app (l1 l2 : list string) (k : string -> M unit) :
  forall fullText,
    thenLoop (forLines JSON_parse (l1 ++ l2) fullText) k
    = thenLoop (forLines JSON_parse l1 fullText)
               (fun fullText' => thenLoop (forLines JSON_parse l2 fullText') k).
Proof.
  induction l1 as [|line rest IH]; intro fullText.
  - simpl app. simpl forLines. rewrite thenLoop_ret. reflexivity.
  - simpl app. simpl forLines. destruct (JS.includes "[DONE]" line); [reflexivity|].
    destruct (JS.startsWith "data: " line); [|apply IH].
    rewrite !thenLoop_bind. apply bind_ext. intro fullText'. apply IH.
Qed.

(** A line without the end marker that is no data line, or whose payload
    [JSON.parse] refuses, is passed over and the loop goes on. *)
Lemma forLines_skips (line : string) (rest : list string) (fullText : string) :
  JS.includes "[DONE]" line = false ->
  JS.startsWith "data: " line = false \/ JSON_parse (JS.slice 6 line) = None ->
  forLines JSON_parse (line :: rest) fullText = forLines JSON_parse rest fullText.
Proof.
  intros Hd Hs. simpl. rewrite Hd. destruct (JS.startsWith "data: " line).
  - destruct Hs as [Hs|Hs]; [discriminate|].
    unfold dataLine, parseJSON. rewrite Hs.
    cbv beta iota zeta delta [bind ret try_catch throw].
    destruct (forLines JSON_parse rest fullText). reflexivity.
  - reflexivity.
Qed.

(** A read made of whole lines is processed as its non-blank lines. *)
Lemma readLoop_whole_lines (g : list string) (rest : list string)
      (fin : option Thrown) (fullText : string) :
  forallb singleLine g = true ->
  readLoop JSON_parse (unlines g :: rest) fin fullText
  = thenLoop (forLines JSON_parse (filter nonblank g) fullText)
             (readLoop JSON_parse rest fin).
Proof.
  intro H. simpl readLoop. rewrite (linesOf_unlines _ H). reflexivity.
Qed.

(** However whole lines are grouped into reads, the adapter processes
    the non-blank lines once each, in order, until one ends the stream. *)
Lemma readLoop_line_aligned (groups : list (list string)) (fin : option Thrown) :
  forallb (forallb singleLine) groups = true ->
  forall fullText,
    readLoop JSON_parse (map unlines groups) fin fullText
    = thenLoop (forLines JSON_parse (filter nonblank (concat groups)) fullText)
               (readLoop JSON_parse [] fin).
Proof.
  induction groups as [|g gs IH]; intros H fullText.
  - simpl concat. simpl filter. simpl forLines. rewrite thenLoop_ret. reflexivity.
  - simpl in H. apply andb_prop in H. destruct H as [Hg Hgs].
    simpl map. rewrite (readLoop_whole_lines _ _ _ _ Hg).
    simpl concat. rewrite filter_app, forLines_app.
    apply thenLoop_ext. intro fullText'. apply (IH Hgs).
Qed.

(** A data line with a string at [choices[0].delta.content]: a chunk of
    the string unless it is empty. *)
Lemma dataLine_yields (line d fullText : string) :
  yields JSON_parse line (Some d) ->
  dataLine JSON_parse line fullText
  = (map OnChunk (texts [Some d]), inr (fullText ++ d)).
Proof.
  intros [_ [_ [data [choices [first [Hp [Hc [Hf Hv]]]]]]]].
  unfold dataLine, parseJSON. rewrite Hp.
  cbv beta iota zeta delta [bind ret try_catch lift emit throw deltaContent].
  rewrite Hc, Hf, Hv. simpl. unfold JS.falsy. destruct d as [|c d]; simpl.
  - rewrite append_empty_r. reflexivity.
  - reflexivity.
Qed.

Lemma texts_cons (o : option string) (os : list (option string)) :
  texts (o :: os) = (texts [o] ++ texts os)%list.
Proof.
  destruct o as [d|]; simpl; [|reflexivity]. destruct (JS.falsy d); reflexivity.
Qed.

Lemma forLines_head (line : string) (rest : list string) (fullText : string) :
  forLines JSON_parse (line :: rest) fullText
  = if JS.includes "[DONE]" line then emit (OnComplete fullText) ;;; ret Return
    else if JS.startsWith "data: " line
         then fullText' <- dataLine JSON_parse line fullText ;;
              forLines JSON_parse rest fullText'
         else forLines JSON_parse rest fullText.
Proof. reflexivity. Qed.

(** Lines that give their texts, then the rest of the loop. *)
Lemma forLines_yields (lines : list string) (outs : list (option string))
      (rest : list string) :
  Forall2 (yields JSON_parse) lines outs ->
  forall fullText,
    forLines JSON_parse (lines ++ rest) fullText
    = (let (tr, r) := forLines JSON_parse rest (fullText ++ concatAll (texts outs)) in
       ((map OnChunk (texts outs) ++ tr)%list, r)).
Proof.
  induction 1 as [|line o lines outs Hy _ IH]; intro fullText.
  - simpl. rewrite append_empty_r. destruct (forLines JSON_parse rest fullText).
    reflexivity.
  - destruct o as [d|].
    + pose proof (dataLine_yields line d fullText Hy) as Hd.
      destruct Hy as [Hm [Hs _]].
      rewrite (texts_cons (Some d) outs), concatAll_app.
      replace (concatAll (texts [Some d])) with d
        by (simpl; unfold JS.falsy; destruct d; reflexivity).
      rewrite <- append_assoc, map_app.
      change ((line :: lines) ++ rest)%list with (line :: (lines ++ rest))%list.
      rewrite forLines_head, Hm, Hs, Hd. unfold bind. rewrite IH.
      destruct (forLines JSON_parse rest ((fullText ++ d) ++ concatAll (texts outs)))
        as [tr r].
      rewrite <- app_assoc. reflexivity.
    + destruct Hy as [Hm Hs]. simpl app.
      rewrite (forLines_skips line _ fullText Hm Hs). apply IH.
Qed.

(** Reads of whole lines whose non-blank lines give their texts up to the
    end of the body or to the line of the end marker. *)
Lemma readLoop_yields
      (groups : list (list string)) (lines tail : list string)
      (outs : list (option string)) (fin : option Thrown) (fullText : string) :
  forallb (forallb singleLine) groups = true ->
  filter nonblank (concat groups) = (lines ++ tail)%list ->
  Forall2 (yields JSON_parse) lines outs ->
  (tail = [] /\ fin = None) \/ (exists trailing, tail = "data: [DONE]" :: trailing) ->
  readLoop JSON_parse (map unlines groups) fin fullText
  = ((map OnChunk (texts outs) ++ [OnComplete (fullText ++ concatAll (texts outs))])%list,
     inr tt).
Proof.
  intros Hg Hl Hy Ht. rewrite (readLoop_line_aligned groups fin Hg), Hl.
  rewrite (forLines_yields _ _ _ Hy).
  destruct Ht as [[-> ->]|[trailing ->]].
  - simpl. unfold thenLoop, bind, ret, emit. simpl. rewrite app_nil_r. reflexivity.
  - simpl forLines.
    replace (JS.includes "[DONE]" "data: [DONE]") with true by (vm_compute; reflexivity).
    unfold thenLoop, bind, emit, ret. simpl. rewrite app_nil_r. reflexivity.
Qed.

End Framing.

End AIServiceFacts.

(** * Properties of the session store and the turn handler *)
Module AppFacts.
Import App Traces Stores.

Lemma state_eq (a b : State) :
  sessions a = sessions b -> currentSessionId a = currentSessionId b ->
  settings a = settings b -> isLoading a = isLoading b -> a = b.
Proof. destruct a, b; simpl; intros; subst; reflexivity. Qed.

Lemma mapSession_absent id f l : absent id l -> mapSession id f l = l.
Proof.
  unfold absent, mapSession. induction l as [|s l IH]; intro H; simpl.
  - reflexivity.
  - rewrite IH by (intros x Hx; apply H; now right).
    destruct (String.eqb_spec (ChatSession.id s) id) as [E|_]; [|reflexivity].
    exfalso. apply (H s); [now left | exact E].
Qed.

Lemma mapSession_nth id f l i :
  nth_error (mapSession id f l) i
  = option_map (fun s => if (ChatSession.id s =? id)%string then f s else s)
               (nth_error l i).
Proof. unfold mapSession. apply nth_error_map. Qed.

Lemma findSession_absent id l : absent id l -> findSession id l = None.
Proof.
  unfold absent, findSession. induction l as [|s l IH]; intro H; simpl.
  - reflexivity.
  - destruct (String.eqb_spec (ChatSession.id s) id) as [E|_].
    + exfalso. apply (H s); [now left | exact E].
    + apply IH. intros x Hx. apply H. now right.
Qed.

Lemma findSession_mapSession id f l :
  (forall s, ChatSession.id (f s) = ChatSession.id s) ->
  findSession id (mapSession id f l) = option_map f (findSession id l).
Proof.
  intro Hid. unfold findSession, mapSession. induction l as [|s l IH]; simpl.
  - reflexivity.
  - destruct (String.eqb_spec (ChatSession.id s) id) as [E|N].
    + rewrite Hid, E, String.eqb_refl. reflexivity.
    + apply String.eqb_neq in N. rewrite N. exact IH.
Qed.

Lemma mutateFound_length id f msgs :
  List.length (mutateFound id f msgs) = List.length msgs.
Proof.
  induction msgs as [|m r IH]; simpl; [reflexivity|].
  destruct (Message.id m =? id)%string; simpl; [reflexivity | now rewrite IH].
Qed.


Lemma mutateFound_find id f msgs :
  (forall m, Message.id (f m) = Message.id m) ->
  find (fun m => (Message.id m =? id)%string) (mutateFound id f msgs)
  = option_map f (find (fun m => (Message.id m =? id)%string) msgs).
Proof.
  intro Hid. induction msgs as [|m r IH]; simpl; [reflexivity|].
  destruct (Message.id m =? id)%string eqn:E; simpl.
  - rewrite Hid, E. reflexivity.
  - rewrite E. exact IH.
Qed.

(** The message found is the one changed... *)
Lemma mutateFound_at id f msgs j :
  findIndex id msgs = Some j ->
  exists m, nth_error msgs j = Some m /\ Message.id m = id /\
            nth_error (mutateFound id f msgs) j = Some (f m).
Proof.
  revert j. induction msgs as [|m r IH]; simpl; intros j H; [discriminate|].
  destruct (String.eqb_spec (Message.id m) id) as [E|N].
  - injection H as <-. exists m. simpl. auto.
  - destruct (findIndex id r) as [k|]; [|discriminate].
    injection H as <-. destruct (IH k eq_refl) as [x [H1 [H2 H3]]].
    exists x. simpl. auto.
Qed.

(** ... and every other position keeps its message. *)
Lemma mutateFound_elsewhere id f msgs j :
  findIndex id msgs <> Some j ->
  nth_error (mutateFound id f msgs) j = nth_error msgs j.
Proof.
  revert j. induction msgs as [|m r IH]; simpl; intros j H; [reflexivity|].
  destruct (Message.id m =? id)%string.
  - destruct j as [|j]; [congruence | reflexivity].
  - destruct j as [|j]; [reflexivity|]. simpl. apply IH.
    intro K. apply H. rewrite K. reflexivity.
Qed.

Lemma filter_absent id (l : list ChatSession.t) :
  absent id (filter (fun s => negb (ChatSession.id s =? id)%string) l).
Proof.
  intros s Hs E. apply filter_In in Hs. destruct Hs as [_ Hs].
  rewrite E, String.eqb_refl in Hs. discriminate.
Qed.

(** After [deleteChat] no session has the deleted id, provided the
    session created when the store empties gets another id. *)
Lemma deleteChat_absent id tId tCreated tUpdated st :
  JS.toString tId <> id ->
  absent id (sessions (deleteChat id tId tCreated tUpdated st)).
Proof.
  intro Hfresh. unfold deleteChat.
  pose proof (filter_absent id (sessions st)) as Hf.
  destruct (currentSessionId st) as [cur|]; [|exact Hf].
  destruct (cur =? id)%string; [|exact Hf].
  destruct (filter _ (sessions st)) as [|s l] eqn:E; [|exact Hf].
  simpl. intros s [<-|[]]. exact Hfresh.
Qed.

(** The callbacks of a turn whose session is gone change no session. *)
Lemma callbacks_absent (turn : Turn) (st : State) :
  absent (sessionId turn) (sessions st) ->
  (forall chunk, onChunk turn chunk st = st) /\
  fst (onComplete turn st) = setIsLoading false st /\
  (forall title, onTitle turn title st = st) /\
  (forall message, onError turn message st = setIsLoading false st).
Proof.
  intro H. repeat split; intros;
    unfold onChunk, onTitle, onError, setSessions; simpl;
    apply state_eq; simpl; try reflexivity; apply mapSession_absent; exact H.
Qed.

Lemma absent_mapSession sid id f l :
  (forall s, ChatSession.id (f s) = ChatSession.id s) ->
  absent sid l -> absent sid (mapSession id f l).
Proof.
  intros Hid H s' Hin. unfold mapSession in Hin.
  apply in_map_iff in Hin. destruct Hin as [s [<- Hs]].
  destruct (ChatSession.id s =? id)%string; [rewrite Hid|]; apply (H s Hs).
Qed.

(** No action brings a session of the id back, unless it mints that id. *)
Lemma absent_step sid a st :
  keepsId sid a -> absent sid (sessions st) -> absent sid (sessions (step a st)).
Proof.
  intros Hk H. destruct a; simpl in *.
  - unfold handleSendMessage. destruct (currentSessionId st) as [cur|]; [|exact H].
    destruct (JS.falsy cur); [exact H|]. simpl.
    repeat (apply absent_mapSession; [reflexivity|]). exact H.
  - apply absent_mapSession; [reflexivity | exact H].
  - exact H.
  - apply absent_mapSession; [reflexivity | exact H].
  - apply absent_mapSession; [reflexivity | exact H].
  - exact H.
  - assert (Hf : absent sid (filter (fun s => negb (ChatSession.id s =? id)%string)
                                    (sessions st))).
    { intros s Hs. apply filter_In in Hs. apply H, Hs. }
    unfold deleteChat. destruct (currentSessionId st) as [cur|]; [|exact Hf].
    destruct (cur =? id)%string; [|exact Hf].
    destruct (filter _ (sessions st)) as [|s l] eqn:E; [|exact Hf].
    simpl. intros s [<-|[]]. exact Hk.
  - intros s [<-|Hs]; [exact Hk | apply (H s Hs)].
Qed.

Lemma absent_run sid actions :
  Forall (keepsId sid) actions ->
  forall st, absent sid (sessions st) -> absent sid (sessions (run actions st)).
Proof.
  induction 1 as [|a l Ha _ IH]; intros st H; [exact H|].
  simpl. apply IH, absent_step; assumption.
Qed.

(** C5.  Once [deleteChat] has removed the session a turn streams into,
    and whatever the user does afterwards, the turn's callbacks are total
    functions that change no session: a chunk is dropped, completion and
    error only clear the loading flag, a resolved title is dropped, and no
    session of the deleted id is in the store.  (The ids minted afterwards
    differ from the deleted one.) *)
Theorem callbacks_after_deleteChat
        (turn : Turn) (tId tCreated tUpdated : N) (st : State)
        (actions : list Action) :
  JS.toString tId <> sessionId turn ->
  Forall (keepsId (sessionId turn)) actions ->
  let st' := run actions (deleteChat (sessionId turn) tId tCreated tUpdated st) in
  findSession (sessionId turn) (sessions st') = None /\
  (forall chunk, onChunk turn chunk st' = st') /\
  fst (onComplete turn st') = setIsLoading false st' /\
  (forall title, onTitle turn title st' = st') /\
  (forall message, onError turn message st' = setIsLoading false st').
Proof.
  intros Hfresh Hk st'.
  pose proof (deleteChat_absent _ tId tCreated tUpdated st Hfresh) as H0.
  pose proof (absent_run _ _ Hk _ H0) as H.
  split; [apply findSession_absent; exact H | apply callbacks_absent; exact H].
Qed.

(** C6.  A chunk changes nothing but the message found by the turn's
    stored message id inside the sessions of the turn's stored session
    id: the session selected at that moment plays no part, a session of
    another id is left as it is, and a session of the turn's id keeps
    every field but its messages, and as many of these.  Where the
    turn's id is the id of one session (two sessions of one id share
    their placeholder, and a change made through one shows in the
    other), every position but the one found keeps its message, and the
    message found has the chunk appended to its content and its other
    fields as before. *)
Theorem onChunk_frame (turn : Turn) (chunk : string) (st : State)
        (i : nat) (s : ChatSession.t) :
  nth_error (sessions st) i = Some s ->
  (forall other,
      sessions (onChunk turn chunk (selectSession other st))
      = sessions (onChunk turn chunk st)) /\
  List.length (sessions (onChunk turn chunk st)) = List.length (sessions st) /\
  exists s',
    nth_error (sessions (onChunk turn chunk st)) i = Some s' /\
    (ChatSession.id s <> sessionId turn -> s' = s) /\
    withMessages s' (ChatSession.messages s) = s /\
    List.length (ChatSession.messages s') = List.length (ChatSession.messages s) /\
    (oneSession (sessionId turn) (sessions st) ->
     (forall j, findIndex (aiMsgId turn) (ChatSession.messages s) <> Some j ->
                nth_error (ChatSession.messages s') j
                = nth_error (ChatSession.messages s) j) /\
     (forall j m, ChatSession.id s = sessionId turn ->
                  findIndex (aiMsgId turn) (ChatSession.messages s) = Some j ->
                  nth_error (ChatSession.messages s) j = Some m ->
                  nth_error (ChatSession.messages s') j
                  = Some (Message.mk (Message.id m) (Message.role m)
                                     (Message.content m ++ chunk)
                                     (Message.timestamp m) (Message.image m)
                                     (Message.isError m)))).
Proof.
  intro Hs. split; [reflexivity|]. split.
  { unfold onChunk, setSessions, mapSession. simpl. apply length_map. }
  unfold onChunk, setSessions. simpl. rewrite mapSession_nth, Hs. simpl.
  destruct (String.eqb_spec (ChatSession.id s) (sessionId turn)) as [E|N].
  - eexists. split; [reflexivity|]. split; [congruence|].
    split; [destruct s; reflexivity|]. simpl.
    split; [apply mutateFound_length|]. intros _.
    split; [intros j Hj; apply mutateFound_elsewhere; exact Hj|].
    intros j m _ Hj Hm.
    destruct (mutateFound_at _ (appendContent chunk) _ _ Hj) as [x [H1 [_ H3]]].
    rewrite Hm in H1. injection H1 as <-. exact H3.
  - exists s. split; [reflexivity|]. split; [reflexivity|].
    split; [destruct s; reflexivity|]. split; [reflexivity|]. intros _.
    split; [reflexivity|]. intros j m E. contradiction.
Qed.


Lemma placeholderContent_onChunk (turn : Turn) (chunk c0 : string) (st : State) :
  placeholderContent turn st = Some c0 ->
  placeholderContent turn (onChunk turn chunk st) = Some (c0 ++ chunk).
Proof.
  unfold placeholderContent, onChunk, setSessions. simpl.
  rewrite findSession_mapSession by reflexivity.
  destruct (findSession (sessionId turn) (sessions st)) as [s|]; [|discriminate].
  simpl. rewrite mutateFound_find by reflexivity.
  destruct (find _ (ChatSession.messages s)) as [m|]; [|discriminate].
  simpl. intro H. injection H as <-. reflexivity.
Qed.

(** Chunks delivered in order append their concatenation. *)
Lemma placeholderContent_applyChunks (turn : Turn) (chunks : list string) :
  forall (c0 : string) (st : State),
    placeholderContent turn st = Some c0 ->
    placeholderContent turn (applyChunks turn chunks st)
    = Some (c0 ++ Traces.concatAll chunks).
Proof.
  induction chunks as [|c cs IH]; intros c0 st H.
  - simpl. now rewrite AIServiceFacts.append_empty_r.
  - simpl. rewrite AIServiceFacts.concatAll_cons, <- AIServiceFacts.append_assoc.
    apply IH. apply placeholderContent_onChunk. exact H.
Qed.

(** *** Rejected send requests *)

Lemma trim_allWhiteSpace (s : string) :
  allWhiteSpace s = true -> JS.trim s = "".
Proof.
  unfold JS.trim. induction s as [|c s IH]; simpl; intro H; [reflexivity|].
  apply andb_prop in H. destruct H as [Hc Hs]. rewrite Hc. apply IH, Hs.
Qed.

(** C9.  A send request made with no active session, or with a text that
    is empty or white space only and no image attached, changes nothing
    in the component's state and starts no stream: no user message, no
    placeholder, no [streamResponse] call. *)
Theorem handleSend_rejected (clk : SendClock) (input : ChatInput.Input) (st : State) :
  currentSessionId st = None \/
  (allWhiteSpace (ChatInput.text input) = true /\ ChatInput.image input = None) ->
  snd (ChatInput.handleSend clk input st) = (st, None).
Proof.
  intros [H|[Ht Hi]]; unfold ChatInput.handleSend.
  - destruct (_ || _); [reflexivity|]. simpl.
    unfold handleSendMessage. rewrite H. reflexivity.
  - rewrite (trim_allWhiteSpace _ Ht), Hi. reflexivity.
Qed.

(** *** Title generation *)







Lemma find_In (id : string) (l : list ChatSession.t) (s : ChatSession.t) :
  findSession id l = Some s -> In s l /\ ChatSession.id s = id.
Proof.
  intro H. apply find_some in H. destruct H as [Hin E].
  apply String.eqb_eq in E. auto.
Qed.


Section Delivery.

Variable env : AIService.Env.
Variable turn : Turn.

Lemma deliver_deliverAll (trace : list AIService.Event) (st : State) :
  deliver env turn trace st = deliverAll env turn trace (st, []).
Proof. reflexivity. Qed.

Lemma deliverAll_app (t1 t2 : list AIService.Event) acc :
  deliverAll env turn (t1 ++ t2) acc
  = deliverAll env turn t2 (deliverAll env turn t1 acc).
Proof. apply fold_left_app. Qed.

(** Requests do not reach the store. *)
Lemma deliver_callbacks (trace : list AIService.Event) :
  forall acc,
    deliverAll env turn trace acc = deliverAll env turn (callbacks trace) acc.
Proof.
  induction trace as [|ev rest IH]; intros [st calls]; [reflexivity|].
  destruct ev; simpl; apply IH.
Qed.

Lemma deliver_chunks (cs : list string) :
  forall st calls,
    deliverAll env turn (map AIService.OnChunk cs) (st, calls)
    = (applyChunks turn cs st, calls).
Proof.
  induction cs as [|c cs IH]; intros st calls; [reflexivity|]. simpl. apply IH.
Qed.



End Delivery.





End AppFacts.

(** * Closed instances *)
Module Instances.
Import AIService App Traces Stores AIServiceFacts AppFacts Examples.

Example send1 : handleSendMessage clock1 "Hello" None state0 = (state1, Some turn1).
Proof. reflexivity. Qed.

(** The instance the specification gives: one frame, then the end marker. *)
Example hi_then_done :
  callbacks (fst (streamOf wholeReads)) = [OnChunk "Hi"; OnComplete "Hi"] /\
  snd (streamOf wholeReads) = inr tt.
Proof. vm_compute. split; reflexivity. Qed.



Lemma oneSession_state1 : oneSession (sessionId turn1) (sessions state1).
Proof. vm_compute. repeat constructor. Defined.


(** A [fetch] that rejects with a value that is no [Error]. *)
Lemma streamResponse_exactly_one_terminal_witness :
  (activeModel (settingsOf OpenAI (Some "sk-test")) <> Gemini /\
   apiKeys (settingsOf OpenAI (Some "sk-test"))
           (activeModel (settingsOf OpenAI (Some "sk-test"))) = Some "sk-test" /\
   JS.falsy "sk-test" = false /\
   fetch (envOf (FetchRejects OtherValue)) = FetchRejects OtherValue) /\
  callbacks (fst (streamResponse JSONText.parse (envOf (FetchRejects OtherValue))
                                 (contextMessages turn1)
                                 (settingsOf OpenAI (Some "sk-test"))))
  = [OnError "Unknown error occurred"].
Proof.
  split; [repeat split; try reflexivity; discriminate|].
  apply (proj2 (proj2 (proj2 (streamResponse_exactly_one_terminal
                                JSONText.parse (envOf (FetchRejects OtherValue))
                                (contextMessages turn1)
                                (settingsOf OpenAI (Some "sk-test")))))
           "sk-test" OtherValue);
    try reflexivity; discriminate.
Defined.

(** DeepSeek with an empty key. *)
Lemma streamResponse_missing_key_witness :
  (activeModel (settingsOf DeepSeek (Some "")) = OpenAI \/
   activeModel (settingsOf DeepSeek (Some "")) = DeepSeek) /\
  (apiKeys (settingsOf DeepSeek (Some "")) DeepSeek = None \/
   apiKeys (settingsOf DeepSeek (Some "")) DeepSeek = Some "") /\
  streamResponse JSONText.parse (envOf (okResponse wholeReads))
                 (contextMessages turn1) (settingsOf DeepSeek (Some ""))
  = ([OnError "Please provide an API key for DeepSeek in Settings."], inr tt).
Proof.
  split; [right; reflexivity|]. split; [right; reflexivity|].
  apply (streamResponse_missing_key JSONText.parse (envOf (okResponse wholeReads))
           (contextMessages turn1) (settingsOf DeepSeek (Some "")));
    right; reflexivity.
Defined.

(** C4 fails on a data line whose delta text holds ["[DONE]"].  The line
    begins with the marker of a data line and its JSON decodes to the
    delta ["Type [DONE] to finish"], yet the adapter takes it for the end
    of the stream: it completes with the empty text and emits no chunk. *)
Theorem marker_in_delta_ends_stream :
  JS.startsWith "data: " markerFrame = true /\
  option_map deltaContent (JSONText.parse (JS.slice 6 markerFrame))
  = Some ([], inr (JSON.Str "Type [DONE] to finish")) /\
  callbacks (fst (streamOf [markerFrame ++ LF ++ hiFrame ++ LF ++ doneFrame ++ LF]))
  = [OnComplete ""] /\
  placeholderContent turn1
    (afterStream [markerFrame ++ LF ++ hiFrame ++ LF ++ doneFrame ++ LF])
  = Some "".
Proof. vm_compute. repeat split; reflexivity. Qed.

(** The session of [turn1] deleted while it streams. *)
Lemma callbacks_after_deleteChat_witness :
  (JS.toString 1700000002000 <> sessionId turn1 /\
   Forall (keepsId (sessionId turn1)) actions2) /\
  findSession (sessionId turn1) (sessions state2) = None /\
  (forall chunk, onChunk turn1 chunk state2 = state2) /\
  fst (onComplete turn1 state2) = setIsLoading false state2 /\
  (forall title, onTitle turn1 title state2 = state2) /\
  (forall message, onError turn1 message state2 = setIsLoading false state2).
Proof.
  assert (Hk : Forall (keepsId (sessionId turn1)) actions2).
  { repeat constructor. vm_compute. discriminate. }
  split; [split; [vm_compute; discriminate | exact Hk]|].
  apply (callbacks_after_deleteChat turn1 1700000002000 1700000002000
                                    1700000002000 state1 actions2).
  - vm_compute. discriminate.
  - exact Hk.
Defined.

(** A chunk of [turn1] arriving while the other session is selected leaves
    that session as it was and appends to the placeholder of its own. *)
Lemma onChunk_frame_witness :
  nth_error (sessions state1) 1 = Some session2 /\
  nth_error (sessions state1) 0 = Some streaming1 /\
  oneSession (sessionId turn1) (sessions state1) /\
  nth_error (sessions (onChunk turn1 "Hi" (selectSession "1690000000000" state1))) 1
  = Some session2 /\
  exists s',
    nth_error (sessions (onChunk turn1 "Hi" state1)) 0 = Some s' /\
    nth_error (ChatSession.messages s') 0 = nth_error (ChatSession.messages streaming1) 0 /\
    nth_error (ChatSession.messages s') 1
    = Some (Message.mk "1700000001001" model "Hi" 1700000001000 None None).
Proof.
  split; [reflexivity|]. split; [reflexivity|]. split; [exact oneSession_state1|].
  split.
  - destruct (onChunk_frame turn1 "Hi" state1 1 session2 eq_refl)
      as [Hsel [_ [s' [H1 [H2 _]]]]].
    rewrite Hsel, H1. f_equal. apply H2. vm_compute. discriminate.
  - destruct (onChunk_frame turn1 "Hi" state1 0 streaming1 eq_refl)
      as [_ [_ [s' [H1 [_ [_ [_ H5]]]]]]].
    destruct (H5 oneSession_state1) as [H6 H7].
    exists s'. split; [exact H1|]. split.
    + apply H6. vm_compute. discriminate.
    + apply (H7 1 placeholder1); reflexivity.
Defined.



(** The guard on the text is the input's: [handleSendMessage] called by
    itself with a blank text does start a turn. *)
Remark handleSendMessage_takes_blank_text :
  exists st turn, handleSendMessage clock1 "   " None state0 = (st, Some turn).
Proof. eexists. eexists. reflexivity. Qed.

(** Three spaces and no image. *)
Lemma handleSend_rejected_witness :
  (currentSessionId state0 = None \/
   (allWhiteSpace (ChatInput.text {| ChatInput.text := "   "; ChatInput.image := None |})
    = true /\
    ChatInput.image {| ChatInput.text := "   "; ChatInput.image := None |} = None)) /\
  snd (ChatInput.handleSend clock1
         {| ChatInput.text := "   "; ChatInput.image := None |} state0)
  = (state0, None).
Proof.
  split; [right; split; reflexivity|].
  apply (handleSend_rejected clock1
           {| ChatInput.text := "   "; ChatInput.image := None |} state0).
  right. split; reflexivity.
Defined.

End Instances.

(** * Further properties of the adapters *)
Module AdapterMore.
Import AIService Traces Shapes AIServiceFacts.

Section Rest.

Variable JSON_parse : string -> option JSON.t.

Lemma filter_isFetch_chunks (cs : list string) (tl : list Event) :
  filter isFetch (map OnChunk cs ++ tl) = filter isFetch tl.
Proof. induction cs as [|c cs IH]; [reflexivity | exact IH]. Qed.

(** The stream loop issues no request. *)
Lemma readLoop_no_fetch rs fin fullText :
  filter isFetch (fst (readLoop JSON_parse rs fin fullText)) = [].
Proof.
  destruct (readLoop_cases JSON_parse rs fin fullText) as [cs [H|[e H]]]; rewrite H; simpl.
  - apply filter_isFetch_chunks.
  - rewrite <- (app_nil_r (map OnChunk cs)). apply filter_isFetch_chunks.
Qed.

(** The REST adapter's trace: its request, then a pure callback trace. *)
Lemma streamStandardOpenAI_trace net messages apiKey provider instruction :
  exists tl r,
    streamStandardOpenAI JSON_parse net messages apiKey provider instruction
    = (Fetch (baseUrl provider ++ "/chat/completions") ("Bearer " ++ apiKey)
             (payload messages provider instruction) :: tl, r) /\
    filter isFetch tl = [].
Proof.
  unfold streamStandardOpenAI. destruct net as [e|response].
  - exists [], (inl e). split; reflexivity.
  - destruct (ok response) eqn:Hok; simpl.
    + destruct (body response) as [reader|].
      * pose proof (readLoop_no_fetch (reads reader) (ending reader) "") as H.
        destruct (readLoop JSON_parse (reads reader) (ending reader) "") as [tl r].
        exists tl, r. split; [reflexivity | exact H].
      * eexists [], _. split; reflexivity.
    + destruct (text response); eexists [], _; split; reflexivity.
Qed.

(** X2.  A call with OpenAI or DeepSeek active and a non-empty key issues
    exactly one [fetch], whatever the network then does: a POST to the
    provider's [chat/completions] with the key as bearer token and the
    payload of the conversation; there is no second attempt. *)
Theorem streamResponse_one_fetch
        (env : Env) (messages : list Message.t) (settings : AppSettings)
        (apiKey : string) :
  activeModel settings <> Gemini ->
  apiKeys settings (activeModel settings) = Some apiKey ->
  apiKey <> "" ->
  filter isFetch (fst (streamResponse JSON_parse env messages settings))
  = [Fetch (baseUrl (activeModel settings) ++ "/chat/completions")
           ("Bearer " ++ apiKey)
           (payload messages (activeModel settings) (systemInstruction settings))] /\
  hd_error (fst (streamResponse JSON_parse env messages settings))
  = Some (Fetch (baseUrl (activeModel settings) ++ "/chat/completions")
                ("Bearer " ++ apiKey)
                (payload messages (activeModel settings) (systemInstruction settings))).
Proof.
  intros Hp Hk Hne. unfold streamResponse.
  assert (Hf : JS.falsy apiKey = false).
  { unfold JS.falsy. apply String.eqb_neq. exact Hne. }
  destruct (activeModel settings) eqn:E; [contradiction Hp; reflexivity| |];
    rewrite Hk, Hf;
    match goal with
    | |- context [streamStandardOpenAI _ ?n ?m ?k ?p ?i] =>
        destruct (streamStandardOpenAI_trace n m k p i) as [tl [r [H Htl]]]
    end;
    rewrite H; destruct r as [e|[]]; simpl; rewrite ?filter_app, Htl; split; reflexivity.
Qed.

(** X1.  When the provider answers with a status that is not a success,
    the call ends in [onError] with the status and the body of the answer
    in the message, and no chunk is emitted; the body stream is not read. *)
Theorem streamResponse_http_error
        (env : Env) (messages : list Message.t) (settings : AppSettings)
        (apiKey err : string) (response : Response) :
  activeModel settings <> Gemini ->
  apiKeys settings (activeModel settings) = Some apiKey ->
  apiKey <> "" ->
  fetch env = FetchResolves response ->
  ok response = false ->
  text response = inr err ->
  callbacks (fst (streamResponse JSON_parse env messages settings))
  = [OnError ("API Error " ++ JS.toString (status response) ++ ": " ++ err)] /\
  snd (streamResponse JSON_parse env messages settings) = inr tt.
Proof.
  intros Hp Hk Hne Hfetch Hok Htext. unfold streamResponse.
  assert (Hf : JS.falsy apiKey = false).
  { unfold JS.falsy. apply String.eqb_neq. exact Hne. }
  destruct (activeModel settings) eqn:E; [contradiction Hp; reflexivity| |];
    rewrite Hk, Hf; unfold streamStandardOpenAI; rewrite Hfetch, Hok; simpl;
    rewrite Htext; split; reflexivity.
Qed.

(** A [for] loop that meets a line holding the end marker returns. *)
Lemma forLines_returns (lines : list string) :
  existsb (JS.includes "[DONE]") lines = true ->
  forall fullText, exists tr, forLines JSON_parse lines fullText = (tr, inr Return).
Proof.
  induction lines as [|line rest IH]; intros H fullText; [discriminate|].
  simpl in *. destruct (JS.includes "[DONE]" line).
  - eexists. reflexivity.
  - simpl in H. destruct (JS.startsWith "data: " line); [|apply IH, H].
    destruct (dataLine_cases JSON_parse line fullText) as [E|[c E]]; rewrite E; simpl.
    + destruct (IH H fullText) as [tr K]. rewrite K. eexists. reflexivity.
    + destruct (IH H (fullText ++ c)) as [tr K]. rewrite K. eexists. reflexivity.
Qed.

(** X3.  Once a read holds a line with the end marker, nothing that
    follows counts: the reads after it are not looked at, and a failure of
    the body stream after it is not reported. *)
Theorem readLoop_stops_at_done
        (chunk : string) (rest rest' : list string) (fin fin' : option Thrown)
        (fullText : string) :
  existsb (JS.includes "[DONE]") (linesOf chunk) = true ->
  readLoop JSON_parse (chunk :: rest) fin fullText
  = readLoop JSON_parse (chunk :: rest') fin' fullText.
Proof.
  intro H. simpl. destruct (forLines_returns _ H fullText) as [tr K].
  rewrite K. reflexivity.
Qed.

(** X4.  A successful answer whose body arrives in reads of whole lines,
    blank lines anywhere, and whose non-blank lines before a line
    ["data: [DONE]"] are free of the text ["[DONE]"] and are each a data
    line with a string at [choices[0].delta.content] or a line that is no
    data line or does not parse: the call emits the strings that are not
    empty as chunks, in the order of their lines, and completes with
    their concatenation, whatever follows the marker and however the
    body stream ends. *)
Theorem streamResponse_frames_then_done
        (env : Env) (messages : list Message.t) (settings : AppSettings)
        (apiKey : string) (response : Response)
        (groups : list (list string)) (lines trailing : list string)
        (outs : list (option string)) (fin : option Thrown) :
  activeModel settings <> Gemini ->
  apiKeys settings (activeModel settings) = Some apiKey ->
  apiKey <> "" ->
  fetch env = FetchResolves response ->
  ok response = true ->
  body response = Some {| reads := map unlines groups; ending := fin |} ->
  forallb (forallb singleLine) groups = true ->
  filter nonblank (concat groups) = (lines ++ "data: [DONE]" :: trailing)%list ->
  Forall2 (yields JSON_parse) lines outs ->
  callbacks (fst (streamResponse JSON_parse env messages settings))
  = (map OnChunk (texts outs) ++ [OnComplete (concatAll (texts outs))])%list.
Proof.
  intros Hp Hk Hne Hfetch Hok Hbody Hg Hl Hy. unfold streamResponse.
  assert (Hf : JS.falsy apiKey = false).
  { unfold JS.falsy. apply String.eqb_neq. exact Hne. }
  assert (Hr : readLoop JSON_parse (map unlines groups) fin ""
               = ((map OnChunk (texts outs) ++ [OnComplete (concatAll (texts outs))])%list,
                  inr tt)).
  { apply (readLoop_yields JSON_parse groups lines ("data: [DONE]" :: trailing) outs fin "");
      try assumption. right. exists trailing. reflexivity. }
  destruct (activeModel settings) eqn:E; [contradiction Hp; reflexivity| |];
    rewrite Hk, Hf; unfold streamStandardOpenAI; rewrite Hfetch, Hok, Hbody; simpl;
    rewrite Hr; simpl; rewrite callbacks_app, callbacks_chunks; reflexivity.
Qed.

(** X5.  A data line emits a chunk only if its payload parses and
    [choices[0].delta.content] of the parsed value is there, is truthy and
    has a string form; the chunk is then that string form, it is the
    line's only event, and the accumulated text grows by it. *)
Theorem dataLine_chunk_only_for_content (line fullText c : string) :
  In (OnChunk c) (fst (dataLine JSON_parse line fullText)) ->
  exists data choices first v,
    JSON_parse (JS.slice 6 line) = Some data /\
    prop "choices" (Some data) = inr choices /\
    index0 choices = inr first /\
    optProp "content" (optProp "delta" first) = Some v /\
    JSON.truthy v = true /\
    JSON.ToString v = Some c /\
    dataLine JSON_parse line fullText = ([OnChunk c], inr (fullText ++ c)).
Proof.
  unfold dataLine, parseJSON.
  destruct (JSON_parse (JS.slice 6 line)) as [data|]; [|intros []].
  cbv beta iota zeta delta [bind ret try_catch lift emit throw deltaContent].
  destruct (prop "choices" (Some data)) as [e|choices] eqn:Hc; [intros []|].
  destruct (index0 choices) as [e|first] eqn:Hf; [intros []|].
  destruct (optProp "content" (optProp "delta" first)) as [v|] eqn:Hv;
    [|intros []].
  unfold orEmpty. destruct (JSON.truthy v) eqn:Ht.
  - rewrite Ht. unfold stringOf. destruct (JSON.ToString v) as [added|] eqn:Hs.
    + simpl. intros [H|[]]. injection H as <-.
      exists data, choices, first, v. repeat split; auto.
    + simpl. intros [].
  - simpl. intros [].
Qed.

(** X6.  Frames that carry no text are passed over in silence: a payload
    of [null], an object without [choices], an empty [choices], a first
    choice without [delta], a delta without [content], or a content that
    is [null] or the empty string.  The accumulated text is unchanged. *)
Theorem dataLine_without_text (line fullText : string) (data : JSON.t) :
  JSON_parse (JS.slice 6 line) = Some data ->
  data = JSON.Null \/
  (exists ms, data = JSON.Object ms /\
     (JSON.lookup "choices" ms = None \/
      JSON.lookup "choices" ms = Some (JSON.Array []) \/
      exists ch rest,
        JSON.lookup "choices" ms = Some (JSON.Array (JSON.Object ch :: rest)) /\
        (JSON.lookup "delta" ch = None \/
         exists dm, JSON.lookup "delta" ch = Some (JSON.Object dm) /\
           (JSON.lookup "content" dm = None \/
            JSON.lookup "content" dm = Some JSON.Null \/
            JSON.lookup "content" dm = Some (JSON.Str ""))))) ->
  dataLine JSON_parse line fullText = ([], inr fullText).
Proof.
  intros Hp Hd. unfold dataLine, parseJSON. rewrite Hp.
  cbv beta iota zeta delta [bind ret try_catch lift emit throw deltaContent].
  destruct Hd as [->|[ms [-> Hd]]]; [reflexivity|]. simpl.
  destruct Hd as [->|[->|[ch [rest [-> Hd]]]]]; [reflexivity | reflexivity|]. simpl.
  destruct Hd as [->|[dm [-> Hd]]]; [reflexivity|]. simpl.
  destruct Hd as [->|[->| ->]]; reflexivity.
Qed.

End Rest.

Lemma geminiLoop_texts (cs : list (option string)) (fin : option Thrown) :
  forall fullText,
    geminiLoop cs fin fullText
    = match fin with
      | None => ((map OnChunk (texts cs)
                  ++ [OnComplete (fullText ++ concatAll (texts cs))])%list, inr tt)
      | Some e => (map OnChunk (texts cs), inl e)
      end.
Proof.
  induction cs as [|c cs IH]; intro fullText.
  - simpl. destruct fin; [reflexivity|]. unfold emit. now rewrite append_empty_r.
  - simpl. destruct c as [s|]; simpl; [|apply IH].
    unfold JS.falsy in *. destruct (s =? "")%string; simpl; [apply IH|].
    rewrite IH. destruct fin; simpl; [reflexivity|].
    rewrite concatAll_cons, append_assoc. reflexivity.
Qed.

(** X7.  With Gemini active, a client that can be made and a conversation
    that is not empty: the chunks are the texts of the SDK's chunks that
    have a non-empty one, in order; if the SDK's stream ends, the call
    completes with their concatenation, and if it fails, the call ends in
    [onError] with the failure's message after the chunks already out. *)
Theorem streamResponse_gemini
        (JSON_parse : string -> option JSON.t)
        (env : Env) (m : Message.t) (ms : list Message.t) (settings : AppSettings)
        (stream : GeminiStream) :
  activeModel settings = Gemini ->
  getGeminiClient (gemini env) = None ->
  sendMessageStream (gemini env) = inr stream ->
  callbacks (fst (streamResponse JSON_parse env (m :: ms) settings))
  = (map OnChunk (texts (chunks stream)) ++
     [match failure stream with
      | None => OnComplete (concatAll (texts (chunks stream)))
      | Some (ErrorObject message) => OnError message
      | Some OtherValue => OnError "Unknown error occurred"
      end])%list.
Proof.
  intros Hp Hc Hs. unfold streamResponse, streamGemini. rewrite Hp, Hc, Hs.
  unfold lift, bind, emit. rewrite geminiLoop_texts.
  destruct (failure stream) as [[message|]|]; simpl;
    rewrite ?callbacks_app, callbacks_chunks; reflexivity.
Qed.


(** *** [generateTitle] *)

Lemma join_cons_char (sep : string) (c : ascii) (w : string) (ws : list string) :
  JS.join sep (String c w :: ws) = String c (JS.join sep (w :: ws)).
Proof. destruct ws; reflexivity. Qed.

Lemma spaces_app (a b : string) : spaces (a ++ b) = spaces a + spaces b.
Proof.
  induction a as [|c a IH]; simpl; [reflexivity|]. rewrite IH. apply Nat.add_assoc.
Qed.

Lemma split_nonempty (sep : ascii) (s : string) : JS.split sep s <> [].
Proof.
  destruct s as [|c s]; simpl; [discriminate|].
  destruct (Ascii.eqb c sep); [discriminate|].
  destruct (JS.split sep s); discriminate.
Qed.

(** The first [n + 1] pieces joined hold at most [n] spaces, and what
    they leave of the text is nothing or begins with the next space. *)
Lemma join_firstn_spaces (s : string) :
  forall n, exists cut,
    s = JS.join " " (firstn (S n) (JS.split " " s)) ++ cut /\
    spaces (JS.join " " (firstn (S n) (JS.split " " s))) <= n /\
    (cut = "" \/
     (spaces (JS.join " " (firstn (S n) (JS.split " " s))) = n /\
      exists rest, cut = String " " rest)).
Proof.
  induction s as [|c s IH]; intro n.
  - exists "". simpl. rewrite firstn_nil. simpl.
    repeat split; [apply Nat.le_0_l | now left].
  - simpl JS.split. destruct (Ascii.eqb_spec c " ") as [->|N].
    + destruct n as [|n].
      * exists (String " " s). simpl. repeat split; [apply Nat.le_0_l|].
        right. split; [reflexivity|]. exists s. reflexivity.
      * destruct (IH n) as [cut' [H1 [H2 H3]]].
        exists cut'.
        destruct (JS.split " " s) as [|w ws] eqn:E;
          [exfalso; exact (split_nonempty _ _ E)|].
        change (firstn (S (S n)) ("" :: w :: ws))
          with ("" :: firstn (S n) (w :: ws)).
        simpl firstn in *.
        change (JS.join " " ("" :: w :: firstn n ws))
          with (String " " (JS.join " " (w :: firstn n ws))).
        remember (JS.join " " (w :: firstn n ws)) as kept eqn:Ek. clear Ek.
        simpl. split; [now rewrite <- H1|].
        split; [apply le_n_S, H2|].
        destruct H3 as [H3|[H3 H4]]; [now left|]. right. split; [now rewrite H3 | exact H4].
    + destruct (IH n) as [cut' [H1 [H2 H3]]].
      exists cut'.
      destruct (JS.split " " s) as [|w ws] eqn:E;
        [exfalso; exact (split_nonempty _ _ E)|].
      simpl firstn in *. rewrite join_cons_char.
      remember (JS.join " " (w :: firstn n ws)) as kept eqn:Ek. clear Ek.
      apply Ascii.eqb_neq in N. simpl. rewrite N. simpl.
      split; [now rewrite <- H1|]. split; assumption.
Qed.

(** X8.  For a provider other than Gemini the title is made without any
    call: it is the first message up to its fourth space, the space left
    out, followed by ["..."]; a message with fewer than four spaces is
    taken whole. *)
Theorem generateTitle_heuristic
        (env : Env) (firstMessage : string) (provider : ModelProvider) :
  provider <> Gemini ->
  exists kept cut,
    firstMessage = kept ++ cut /\
    generateTitle env firstMessage provider = kept ++ "..." /\
    spaces kept <= 3 /\
    (cut = "" \/ (spaces kept = 3 /\ exists rest, cut = String " " rest)) /\
    (spaces firstMessage < 4 -> cut = "").
Proof.
  intro Hp.
  destruct (join_firstn_spaces firstMessage 3) as [r [H1 [H2 H3]]].
  exists (JS.join " " (firstn 4 (JS.split " " firstMessage))), r.
  split; [exact H1|]. split; [|split; [exact H2|split; [exact H3|]]].
  - destruct provider; [contradiction Hp; reflexivity | reflexivity | reflexivity].
  - intro Hlt. destruct H3 as [H3|[H3 [rest H4]]]; [exact H3|].
    exfalso. rewrite H1, H4 in Hlt. rewrite spaces_app, H3 in Hlt. simpl in Hlt. lia.
Qed.

(** X9.  A title is never empty.  With Gemini it is ["New Chat"] whenever
    the client cannot be made, the call fails, or the answer has no text
    or only white space. *)
Theorem generateTitle_never_empty
        (env : Env) (firstMessage : string) (provider : ModelProvider) :
  generateTitle env firstMessage provider <> "" /\
  ((exists e, getGeminiClient (gemini env) = Some e) \/
   (exists e, generateContent env = inl e) \/
   generateContent env = inr None \/
   (exists t, generateContent env = inr (Some t) /\ Stores.allWhiteSpace t = true) ->
   generateTitle env firstMessage Gemini = "New Chat").
Proof.
  split.
  - destruct provider; simpl.
    + destruct (getGeminiClient (gemini env)); [discriminate|].
      destruct (generateContent env) as [e|[t|]]; try discriminate.
      unfold JS.falsy. destruct (String.eqb_spec (JS.trim t) ""); [discriminate | assumption].
    + destruct (JS.join " " _); discriminate.
    + destruct (JS.join " " _); discriminate.
  - simpl. intros [[e ->]|[[e ->]|[->|[t [-> Ht]]]]]; try reflexivity;
      destruct (getGeminiClient (gemini env)); try reflexivity.
    rewrite (AppFacts.trim_allWhiteSpace _ Ht). reflexivity.
Qed.

(** *** What the SDK is handed *)
Import GeminiRequest.

Lemma stripPrefix_append (p s : string) : stripPrefix p (p ++ s) = Some s.
Proof.
  induction p as [|a p IH]; simpl; [reflexivity|].
  rewrite Ascii.eqb_refl. exact IH.
Qed.

Lemma dropWord_run (w rest : string) :
  allWord w = true -> dropWord (w ++ String ";" rest) = String ";" rest.
Proof.
  induction w as [|c w IH]; simpl; intro H; [reflexivity|].
  apply andb_prop in H. destruct H as [Hc Hw]. rewrite Hc. apply IH, Hw.
Qed.

(** X10.  An image given as a data URL [data:image/<type>;base64,<data>],
    the type a non-empty run of letters, digits and underscores, is handed
    to the SDK as [<data>] alone, and always declared as [image/jpeg]
    whatever the type; a text that does not begin with [data:image/] is
    handed over as it is. *)
Theorem base64ToPart_strips_header (c : ascii) (w data other : string) :
  allWord (String c w) = true ->
  stripPrefix "data:image/" other = None ->
  base64ToPart ("data:image/" ++ String c w ++ ";base64," ++ data)
  = inlineData data "image/jpeg" /\
  base64ToPart other = inlineData other "image/jpeg".
Proof.
  intros Hw Ho. split.
  - unfold base64ToPart, base64Data.
    rewrite (stripPrefix_append "data:image/").
    simpl in Hw. apply andb_prop in Hw. destruct Hw as [Hc Hw].
    change (String c w ++ ";base64," ++ data)
      with (String c (w ++ String ";" ("base64," ++ data))).
    cbv iota beta. rewrite Hc. simpl dropWord. rewrite Hc, (dropWord_run _ _ Hw).
    reflexivity.
  - unfold base64ToPart, base64Data. rewrite Ho. reflexivity.
Qed.

Lemma filter_isSdkSend_chunks (cs : list string) (tl : list Event) :
  filter isSdkSend (map OnChunk cs ++ tl) = filter isSdkSend tl.
Proof. induction cs as [|c cs IH]; [reflexivity | exact IH]. Qed.

Lemma history_last (m : Message.t) (ms : list Message.t) :
  (history (m :: ms) ++ [(Message.role (last ms m), partsOf (last ms m))])%list
  = map (fun x => (Message.role x, partsOf x)) (m :: ms).
Proof.
  unfold history.
  assert (H : (m :: ms) <> []) by discriminate.
  assert (Hl : last (m :: ms) m = last ms m) by (destruct ms; reflexivity).
  transitivity (map (fun x => (Message.role x, partsOf x))
                    (removelast (m :: ms) ++ [last (m :: ms) m])).
  - rewrite map_app, Hl. reflexivity.
  - f_equal. symmetry. apply app_removelast_last, H.
Qed.

(** X11.  With Gemini active and a client that can be made, a
    conversation that is not empty is handed to the SDK whole, in order
    and once, before any callback: the chat is created with the system
    instruction and the messages before the last as history, the last is
    sent as the new turn, and history and new turn together are the
    translation of every message, which is its role with its text as
    only part or, for a message with a non-empty image, with the image
    part (the data of the image, declared [image/jpeg]) before the text.
    An empty conversation is handed nothing: the call ends in [onError]
    with the engine's message at once. *)
Theorem history_and_newParts
        (JSON_parse : string -> option JSON.t) (env : Env)
        (m : Message.t) (ms : list Message.t) (settings : AppSettings) :
  activeModel settings = Gemini ->
  getGeminiClient (gemini env) = None ->
  (exists parts tl,
      fst (streamResponse JSON_parse env (m :: ms) settings)
      = SdkSend (systemInstruction settings) (history (m :: ms)) parts :: tl /\
      filter isSdkSend tl = [] /\
      (history (m :: ms) ++ [(Message.role (last ms m), parts)])%list
      = map (fun x => (Message.role x, partsOf x)) (m :: ms)) /\
  (forall x,
      partsOf x
      = match Message.image x with
        | Some (String c img) =>
            [inlineData (base64Data (String c img)) "image/jpeg";
             text (Message.content x)]
        | _ => [text (Message.content x)]
        end) /\
  streamResponse JSON_parse env [] settings
  = ([OnError (undefinedMessage (gemini env))], inr tt).
Proof.
  intros Hp Hc. split; [|split].
  - exists (partsOf (last ms m)).
    unfold streamResponse, streamGemini. rewrite Hp, Hc. simpl newParts. cbv iota beta.
    unfold lift, bind, emit. destruct (sendMessageStream (gemini env)) as [e|result].
    + simpl. eexists. split; [reflexivity|]. split; [reflexivity | apply history_last].
    + rewrite geminiLoop_texts. destruct (failure result) as [e|]; simpl; eexists;
        (split; [reflexivity|]); (split; [|apply history_last]);
        apply filter_isSdkSend_chunks.
  - intro x. unfold partsOf. destruct (Message.image x) as [[|c img]|]; reflexivity.
  - unfold streamResponse, streamGemini. rewrite Hp, Hc. reflexivity.
Qed.

End AdapterMore.

(** * Further properties of the store and the components *)
Module StoreMore.
Import App Traces Stores Shapes AppShell AppFacts.

(** Ids are decimal numerals: never empty, and different for different
    clock readings. *)
Lemma toString_nonempty (n : N) : JS.toString n <> "".
Proof.
  unfold JS.toString. destruct n as [|p]; [discriminate|]. simpl.
  pose proof (DecimalPos.Unsigned.to_uint_nonnil p) as H.
  destruct (Pos.to_uint p); [contradiction | discriminate ..].
Qed.

Lemma toString_inj (a b : N) : JS.toString a = JS.toString b -> a = b.
Proof.
  unfold JS.toString. intro H. apply DecimalN.Unsigned.to_uint_inj.
  assert (K : NilEmpty.uint_of_string (NilEmpty.string_of_uint (N.to_uint a))
              = NilEmpty.uint_of_string (NilEmpty.string_of_uint (N.to_uint b)))
    by (rewrite H; reflexivity).
  rewrite !NilEmpty.usu in K. injection K as K. exact K.
Qed.

Lemma findSession_mapSession_any c id f l :
  (forall s, ChatSession.id (f s) = ChatSession.id s) ->
  findSession c (mapSession id f l)
  = option_map (fun s => if (ChatSession.id s =? id)%string then f s else s)
               (findSession c l).
Proof.
  intro Hid. unfold findSession, mapSession. induction l as [|s l IH]; [reflexivity|].
  simpl. destruct (ChatSession.id s =? id)%string eqn:E.
  - rewrite Hid. destruct (ChatSession.id s =? c)%string; [simpl; now rewrite E | exact IH].
  - destruct (ChatSession.id s =? c)%string; [simpl; now rewrite E | exact IH].
Qed.

Lemma mapSession_compose id f g l :
  (forall s, ChatSession.id (f s) = ChatSession.id s) ->
  mapSession id g (mapSession id f l) = mapSession id (fun s => g (f s)) l.
Proof.
  intro Hid. unfold mapSession. rewrite map_map. apply map_ext. intro s.
  destruct (ChatSession.id s =? id)%string eqn:E; [rewrite Hid|]; rewrite E; reflexivity.
Qed.

(** X12.  A send with a session selected appends to every session of the
    selected id the user message and then the empty placeholder, stamps
    its update time and raises the loading flag; every other session, the
    selection and the settings are as before.  The context handed to the
    stream is the messages the session had, then the user message: the
    placeholder is not part of it. *)
Theorem handleSendMessage_appends
        (clk : SendClock) (text : string) (image : option string)
        (st : State) (cur : string) :
  currentSessionId st = Some cur ->
  cur <> "" ->
  exists st' turn,
    handleSendMessage clk text image st = (st', Some turn) /\
    sessions st'
    = map (fun s =>
             if (ChatSession.id s =? cur)%string
             then ChatSession.mk (ChatSession.id s) (ChatSession.title s)
                    (ChatSession.messages s
                     ++ [userMsgOf clk text image; placeholderOf clk])
                    (ChatSession.createdAt s) (tUpdatedAt clk) (ChatSession.model s)
             else s)
          (sessions st) /\
    isLoading st' = true /\
    currentSessionId st' = Some cur /\
    settings st' = settings st /\
    sessionId turn = cur /\
    aiMsgId turn = Message.id (placeholderOf clk) /\
    contextMessages turn
    = (match findSession cur (sessions st) with
       | Some s => ChatSession.messages s
       | None => []
       end ++ [userMsgOf clk text image])%list.
Proof.
  intros Hc Hne. unfold handleSendMessage. rewrite Hc.
  assert (Hf : JS.falsy cur = false) by (apply String.eqb_neq; exact Hne).
  rewrite Hf. eexists. eexists. split; [reflexivity|]. simpl.
  split; [|repeat split; try reflexivity; exact Hc].
  rewrite mapSession_compose by reflexivity. unfold mapSession. apply map_ext.
  intro s. destruct (ChatSession.id s =? cur)%string; [|reflexivity].
  unfold withMessages, withUpdatedAt. simpl. rewrite <- app_assoc. reflexivity.
Qed.

(** X13.  While the clock does not run backwards between the two
    readings, the placeholder's id differs from the user message's. *)
Theorem placeholder_id_differs (clk : SendClock) (text : string)
        (image : option string) :
  (tUserId clk <= tAiId clk)%N ->
  Message.id (placeholderOf clk) <> Message.id (userMsgOf clk text image).
Proof.
  intros Hle H. simpl in H. apply toString_inj in H. lia.
Qed.

Lemma find_app_fresh id (msgs rest : list Message.t) :
  freshId id msgs ->
  find (fun m => (Message.id m =? id)%string) (msgs ++ rest)
  = find (fun m => (Message.id m =? id)%string) rest.
Proof.
  induction msgs as [|m l IH]; intro H; [reflexivity|]. simpl.
  destruct (String.eqb_spec (Message.id m) id) as [E|_].
  - exfalso. apply (H m); [now left | exact E].
  - apply IH. intros x Hx. apply H. now right.
Qed.

(** Right after the send, the turn's callbacks find the empty placeholder. *)
Lemma placeholderContent_after_send clk text image st st1 turn s :
  handleSendMessage clk text image st = (st1, Some turn) ->
  findSession (sessionId turn) (sessions st) = Some s ->
  freshId (aiMsgId turn) (ChatSession.messages s) ->
  (tUserId clk <= tAiId clk)%N ->
  placeholderContent turn st1 = Some "".
Proof.
  unfold handleSendMessage. destruct (currentSessionId st) as [cur|]; [|discriminate].
  destruct (JS.falsy cur); [discriminate|].
  intro H. injection H as <- <-. simpl. intros Hs Hfresh Hle.
  unfold placeholderContent. simpl.
  rewrite !findSession_mapSession by reflexivity. rewrite Hs. simpl.
  rewrite <- app_assoc, (find_app_fresh _ _ _ Hfresh). simpl.
  destruct (String.eqb_spec (JS.toString (tUserId clk)) (JS.toString (tAiId clk + 1)))
    as [E|_].
  - apply toString_inj in E. lia.
  - rewrite String.eqb_refl. reflexivity.
Qed.

Lemma placeholderContent_onTitle turn title st :
  placeholderContent turn (onTitle turn title st) = placeholderContent turn st.
Proof.
  unfold placeholderContent, onTitle, setSessions. simpl.
  rewrite findSession_mapSession by reflexivity.
  destruct (findSession (sessionId turn) (sessions st)); reflexivity.
Qed.

Lemma placeholderContent_onError turn message st c :
  placeholderContent turn st = Some c ->
  placeholderContent turn (onError turn message st) = Some ("Error: " ++ message).
Proof.
  unfold placeholderContent, onError, setSessions. simpl.
  rewrite findSession_mapSession by reflexivity.
  destruct (findSession (sessionId turn) (sessions st)) as [s|]; [|discriminate].
  simpl. rewrite mutateFound_find by reflexivity.
  destruct (find _ (ChatSession.messages s)); [reflexivity | discriminate].
Qed.

(** X14.  A whole turn.  Sent into a session that is the only one of its
    id in the store and whose messages do not already use the
    placeholder's id, with a clock that does not run backwards: the
    placeholder starts empty; when the stream completes it
    holds exactly the concatenation of the chunks, which is the full text
    given to [onComplete]; when the stream fails it holds ["Error: "] and
    the failure's message, whatever chunks came before; either way the
    loading flag is down at the end. *)
Theorem turn_end_to_end
        (JSON_parse : string -> option JSON.t) (env : AIService.Env)
        (clk : SendClock) (text : string) (image : option string)
        (st st1 : State) (turn : Turn) (s : ChatSession.t) :
  handleSendMessage clk text image st = (st1, Some turn) ->
  oneSession (sessionId turn) (sessions st) ->
  findSession (sessionId turn) (sessions st) = Some s ->
  freshId (aiMsgId turn) (ChatSession.messages s) ->
  (tUserId clk <= tAiId clk)%N ->
  let trace :=
    fst (AIService.streamResponse JSON_parse env (contextMessages turn)
                                  (turnSettings turn)) in
  let final := fst (deliver env turn trace st1) in
  exists cs terminal,
    callbacks trace = (map AIService.OnChunk cs ++ [terminal])%list /\
    (terminal = AIService.OnComplete (concatAll cs) \/
     exists message, terminal = AIService.OnError message) /\
    placeholderContent turn st1 = Some "" /\
    placeholderContent turn final
    = Some (match terminal with
            | AIService.OnError message => "Error: " ++ message
            | _ => concatAll cs
            end) /\
    isLoading final = false.
Proof.
  intros Hsend _ Hs Hfresh Hle trace final.
  pose proof (placeholderContent_after_send _ _ _ _ _ _ _ Hsend Hs Hfresh Hle) as H0.
  destruct (AIServiceFacts.streamResponse_contract
              JSON_parse env (contextMessages turn) (turnSettings turn))
    as [cs [terminal [_ [Hc Ht]]]].
  fold trace in Hc. exists cs, terminal.
  split; [exact Hc|]. split; [exact Ht|]. split; [exact H0|].
  pose proof (placeholderContent_applyChunks turn cs "" st1 H0) as Hchunks.
  simpl in Hchunks.
  unfold final.
  rewrite deliver_deliverAll, deliver_callbacks, Hc, deliverAll_app, deliver_chunks.
  destruct Ht as [->|[message ->]]; simpl.
  - destruct (titleCall turn) as [[first provider]|]; simpl.
    + rewrite placeholderContent_onTitle. split; [exact Hchunks | reflexivity].
    + split; [exact Hchunks | reflexivity].
  - split; [|reflexivity]. apply (placeholderContent_onError _ _ _ _ Hchunks).
Qed.

(** *** The selected session *)

Lemma findSession_some id (l : list ChatSession.t) (s : ChatSession.t) :
  In s l -> ChatSession.id s = id -> exists s', findSession id l = Some s'.
Proof.
  intros Hin E. unfold findSession.
  destruct (find (fun x => (ChatSession.id x =? id)%string) l) as [s'|] eqn:F.
  - exists s'. reflexivity.
  - exfalso. apply (find_none _ _ F) in Hin. rewrite E, String.eqb_refl in Hin.
    discriminate.
Qed.

Lemma findSession_filter c id (l : list ChatSession.t) :
  c <> id ->
  findSession c (filter (fun s => negb (ChatSession.id s =? id)%string) l)
  = findSession c l.
Proof.
  intro N. unfold findSession. induction l as [|s l IH]; [reflexivity|]. simpl.
  destruct (String.eqb_spec (ChatSession.id s) id) as [E|_]; simpl.
  - destruct (String.eqb_spec (ChatSession.id s) c) as [K|_]; [congruence | exact IH].
  - destruct (ChatSession.id s =? c)%string; [reflexivity | exact IH].
Qed.

Lemma ids_mapSession id f (l : list ChatSession.t) :
  (forall s, ChatSession.id (f s) = ChatSession.id s) ->
  (forall s, In s l -> ChatSession.id s <> "") ->
  forall s, In s (mapSession id f l) -> ChatSession.id s <> "".
Proof.
  intros Hid H s' Hin. unfold mapSession in Hin.
  apply in_map_iff in Hin. destruct Hin as [s [<- Hs]].
  destruct (ChatSession.id s =? id)%string; [rewrite Hid|]; apply (H s Hs).
Qed.

Lemma selectedExists_mapSession id f st :
  (forall s, ChatSession.id (f s) = ChatSession.id s) ->
  selectedExists st -> selectedExists (setSessions (mapSession id f) st).
Proof.
  intros Hid [[cur [s [Hc Hs]]] Hids]. split.
  - exists cur. simpl. rewrite (findSession_mapSession_any _ _ _ _ Hid), Hs.
    eexists. split; [exact Hc | reflexivity].
  - simpl. apply ids_mapSession; assumption.
Qed.

Lemma selectedExists_createNewChat tId tCreated tUpdated st :
  (forall s, In s (sessions st) -> ChatSession.id s <> "") ->
  selectedExists (createNewChat tId tCreated tUpdated st).
Proof.
  intro Hids. split.
  - eexists. eexists. split; [reflexivity|]. unfold findSession. simpl.
    rewrite String.eqb_refl. reflexivity.
  - simpl. intros s [<-|Hs]; [apply toString_nonempty | apply (Hids s Hs)].
Qed.

Lemma selectedExists_step a st :
  offered st a -> selectedExists st -> selectedExists (step a st).
Proof.
  intros Ho H. destruct a; simpl in *.
  - unfold handleSendMessage. destruct (currentSessionId st) as [cur|] eqn:Hc; [|exact H].
    destruct (JS.falsy cur); [exact H|]. simpl.
    destruct H as [[c [s [Hc' Hs]]] Hids]. split.
    + exists c. simpl.
      rewrite !findSession_mapSession_any by reflexivity. rewrite Hs.
      eexists. split; [congruence | reflexivity].
    + simpl. repeat (apply ids_mapSession; [reflexivity|]). exact Hids.
  - apply selectedExists_mapSession; [reflexivity | exact H].
  - exact H.
  - apply selectedExists_mapSession; [reflexivity | exact H].
  - destruct H as [[c [s [Hc Hs]]] Hids]. split.
    + exists c. simpl. rewrite findSession_mapSession_any by reflexivity. rewrite Hs.
      eexists. split; [exact Hc | reflexivity].
    + simpl. apply ids_mapSession; [reflexivity | exact Hids].
  - destruct Ho as [s [Hin E]]. destruct H as [_ Hids]. split; [|exact Hids].
    destruct (findSession_some _ _ _ Hin E) as [s' Hs']. exists id, s'. auto.
  - destruct H as [[c [s [Hc Hs]]] Hids].
    assert (Hf : forall x, In x (filter (fun s => negb (ChatSession.id s =? id)%string)
                                        (sessions st)) -> ChatSession.id x <> "").
    { intros x Hx. apply filter_In in Hx. apply Hids, Hx. }
    unfold deleteChat. rewrite Hc.
    destruct (String.eqb_spec c id) as [E|N].
    + destruct (filter _ (sessions st)) as [|s0 l] eqn:F.
      * apply selectedExists_createNewChat. intros x [].
      * assert (H0 : ChatSession.id s0 <> "") by (apply Hf; now left).
        apply String.eqb_neq in H0. unfold JS.falsy. rewrite H0. split.
        -- exists (ChatSession.id s0), s0. simpl. split; [reflexivity|].
           unfold findSession. simpl. rewrite String.eqb_refl. reflexivity.
        -- exact Hf.
    + split; [|exact Hf]. exists c, s. simpl. split; [exact Hc|].
      rewrite (findSession_filter _ _ _ N). exact Hs.
  - apply selectedExists_createNewChat. apply H.
Qed.

(** X15.  After the load effect the store is never empty and the selected
    session is in it, provided the stored sessions have ids.  With nothing
    stored, or an empty list, the store is one fresh session titled
    ["New Chat"], bound to Gemini whatever provider the stored settings
    select; otherwise the store is the stored list with its first session
    selected. *)
Theorem load_selects_existing
        (savedSessions : option (list ChatSession.t))
        (savedSettings : option AppSettings) (tId tCreated tUpdated : N) :
  (forall l s, savedSessions = Some l -> In s l -> ChatSession.id s <> "") ->
  let st := load savedSessions savedSettings tId tCreated tUpdated in
  selectedExists st /\
  sessions st <> [] /\
  isLoading st = false /\
  match savedSessions with
  | Some (s :: l) =>
      sessions st = s :: l /\ currentSessionId st = Some (ChatSession.id s)
  | _ =>
      sessions st = [ChatSession.mk (JS.toString tId) "New Chat" []
                                    tCreated tUpdated Gemini] /\
      currentSessionId st = Some (JS.toString tId)
  end.
Proof.
  intros Hids st. unfold st, load.
  destruct savedSessions as [[|s l]|]; destruct savedSettings as [x|]; simpl;
    repeat split; try discriminate; try reflexivity;
    try (eexists; eexists; split; [reflexivity|]; unfold findSession; simpl;
         rewrite String.eqb_refl; reflexivity);
    try (intros x0 [<-|[]]; apply toString_nonempty);
    try (intros x0 Hx; apply (Hids (s :: l) x0 eq_refl Hx)).
Qed.

(** X16.  Whatever the user and the turns in flight do from a state in
    which the selected session is in the store, it stays so: sends,
    chunks, completions, titles, errors, deletions, new chats, and
    selections from the list shown never leave the selection dangling or
    the store without the selected session. *)
Theorem selectedExists_run (actions : list Action) :
  forall st,
    selectedExists st -> allOffered actions st ->
    selectedExists (run actions st) /\ sessions (run actions st) <> [].
Proof.
  assert (Hne : forall st, selectedExists st -> sessions st <> []).
  { intros st [[cur [s [_ Hs]]] _] E. rewrite E in Hs. discriminate. }
  induction actions as [|a rest IH]; intros st H Ho.
  - split; [exact H | apply Hne, H].
  - destruct Ho as [Ha Hrest]. simpl. apply IH; [|exact Hrest].
    apply selectedExists_step; assumption.
Qed.

(** *** One stream at a time from the input box *)

Lemma isLoading_step a st :
  keepsLoading a = true -> isLoading st = true -> isLoading (step a st) = true.
Proof.
  intros Hk H. destruct a; simpl in *; try discriminate; try exact H.
  - unfold handleSendMessage. destruct (currentSessionId st); [|exact H].
    destruct (JS.falsy s); [exact H | reflexivity].
  - unfold deleteChat. destruct (currentSessionId st) as [cur|]; [|exact H].
    destruct (cur =? id)%string; [|exact H].
    destruct (filter _ (sessions st)); exact H.
Qed.

Lemma isLoading_run actions :
  forallb keepsLoading actions = true ->
  forall st, isLoading st = true -> isLoading (run actions st) = true.
Proof.
  induction actions as [|a rest IH]; intros Hk st H; [exact H|].
  simpl in Hk. apply andb_prop in Hk. destruct Hk as [Ha Hrest].
  simpl. apply IH; [exact Hrest | apply isLoading_step; assumption].
Qed.

(** X17.  Once the input box has started a turn, it starts no other as
    long as no turn completes or fails, the loading flag being one for
    the whole application: through chunks, titles, selections, deletions,
    new chats and sends that do not come from the box, every further
    send from the box, by its button or by the Enter key, is refused,
    leaving the store and the typed input as they are; the completion
    or the error of any turn, in any state, lowers the flag again. *)
Theorem handleSend_single_flight
        (clk clk2 : SendClock) (input input' input2 : ChatInput.Input)
        (st st1 : State) (turn : Turn) (actions : list Action) :
  ChatInput.handleSend clk input st = (input', (st1, Some turn)) ->
  forallb keepsLoading actions = true ->
  ChatInput.handleSend clk2 input2 (run actions st1)
  = (input2, (run actions st1, None)) /\
  (forall e, ChatInputKeys.handleKeyDown e clk2 input2 (run actions st1)
             = (input2, (run actions st1, None))) /\
  (forall turn' st', isLoading (fst (onComplete turn' st')) = false) /\
  (forall turn' message st', isLoading (onError turn' message st') = false).
Proof.
  intros Hsend Hk.
  cut (ChatInput.handleSend clk2 input2 (run actions st1)
       = (input2, (run actions st1, None))).
  { intro H. split; [exact H|]. split; [|split; reflexivity].
    intro e. unfold ChatInputKeys.handleKeyDown. rewrite H.
    destruct (_ && _); reflexivity. }
  assert (H1 : isLoading st1 = true).
  { revert Hsend. unfold ChatInput.handleSend.
    destruct (_ || _); [discriminate|]. unfold handleSendMessage.
    destruct (currentSessionId st) as [cur|]; [|discriminate].
    destruct (JS.falsy cur); [discriminate|]. intro H. injection H as _ <- _.
    reflexivity. }
  unfold ChatInput.handleSend. rewrite (isLoading_run _ Hk _ H1), orb_true_r.
  reflexivity.
Qed.

(** X18.  Deleting a chat removes no session of another id and adds at
    most one: a session in the store afterwards was there before, or is
    the fresh ["New Chat"] made because the selected chat was deleted and
    nothing else was left.  If another session was selected, it stays
    selected. *)
Theorem deleteChat_keeps_others
        (id : string) (tId tCreated tUpdated : N) (st : State) :
  let st' := deleteChat id tId tCreated tUpdated st in
  (forall s, In s (sessions st) -> ChatSession.id s <> id -> In s (sessions st')) /\
  (forall s, In s (sessions st') ->
     (In s (sessions st) /\ ChatSession.id s <> id) \/
     (s = ChatSession.mk (JS.toString tId) "New Chat" [] tCreated tUpdated
                         (activeModel (settings st)) /\
      currentSessionId st = Some id /\
      forall x, In x (sessions st) -> ChatSession.id x = id)) /\
  (forall cur, currentSessionId st = Some cur -> cur <> id ->
               currentSessionId st' = Some cur).
Proof.
  intro st'. unfold st', deleteChat.
  assert (Hin : forall s, In s (filter (fun s => negb (ChatSession.id s =? id)%string)
                                       (sessions st))
                          <-> In s (sessions st) /\ ChatSession.id s <> id).
  { intro s. rewrite filter_In, negb_true_iff, String.eqb_neq. reflexivity. }
  destruct (currentSessionId st) as [cur|] eqn:Hc.
  - destruct (String.eqb_spec cur id) as [->|N].
    + destruct (filter _ (sessions st)) as [|s0 l] eqn:F.
      * simpl. split; [|split].
        -- intros s Hs Hne. exfalso. apply (proj2 (Hin s)). auto.
        -- intros s [<-|[]]. right. split; [reflexivity|]. split; [reflexivity|].
           intros x Hx. destruct (String.eqb_spec (ChatSession.id x) id) as [E|Ne];
             [exact E|]. exfalso. apply (proj2 (Hin x)). auto.
        -- intros c H Hne. congruence.
      * simpl. split; [|split].
        -- intros s Hs Hne. apply Hin. auto.
        -- intros s Hs. left. apply Hin, Hs.
        -- intros c H Hne. congruence.
    + simpl. split; [|split].
      * intros s Hs Hne. apply Hin. auto.
      * intros s Hs. left. apply Hin, Hs.
      * intros c H _. simpl. congruence.
  - simpl. split; [|split].
    + intros s Hs Hne. apply Hin. auto.
    + intros s Hs. left. apply Hin, Hs.
    + intros c H. discriminate.
Qed.

(** *** The settings form and the adapters *)

(** X19.  The key typed for a provider in the settings form is the one
    the next call to that provider sends as bearer token, and clearing
    the field brings the missing-key error back with no request made; the
    other provider's key is untouched. *)
Theorem setApiKey_is_sent
        (JSON_parse : string -> option JSON.t) (env : AIService.Env)
        (messages : list Message.t) (x : AppSettings)
        (provider : ModelProvider) (c : ascii) (value : string) :
  provider <> Gemini ->
  hd_error (fst (AIService.streamResponse JSON_parse env messages
                   (setActiveModel provider (setApiKey provider (String c value) x))))
  = Some (AIService.Fetch (AIService.baseUrl provider ++ "/chat/completions")
            ("Bearer " ++ String c value)
            (AIService.payload messages provider (systemInstruction x))) /\
  AIService.streamResponse JSON_parse env messages
    (setActiveModel provider (setApiKey provider "" x))
  = ([AIService.OnError ("Please provide an API key for "
                         ++ providerName provider ++ " in Settings.")], inr tt) /\
  (forall other, other <> provider ->
                 apiKeys (setApiKey provider (String c value) x) other
                 = apiKeys x other).
Proof.
  intro Hp. split; [|split].
  - unfold AIService.streamResponse. simpl activeModel.
    destruct provider; [contradiction Hp; reflexivity| |]; simpl;
      match goal with
      | |- context [AIService.streamStandardOpenAI _ ?n ?m ?k ?p ?i] =>
          destruct (AdapterMore.streamStandardOpenAI_trace JSON_parse n m k p i)
            as [tl [r [H _]]]
      end;
      rewrite H; destruct r as [e|[]]; reflexivity.
  - destruct provider; [contradiction Hp; reflexivity | reflexivity | reflexivity].
  - intros other Hne. simpl.
    destruct other, provider; try reflexivity; contradiction Hne; reflexivity.
Qed.

(** *** The rest of the input box *)

(** X20.  Dictated results add up to the typed text joined by single
    spaces: from a text that is not empty, the results [t1..tn] leave the
    text followed by a space and each result in turn; from an empty text
    the first result is taken as it is. *)
Theorem onresult_joins (prev : string) (transcripts : list string) :
  prev <> "" ->
  fold_left ChatInputKeys.onresult transcripts prev
  = JS.join " " (prev :: transcripts) /\
  (forall t, ChatInputKeys.onresult "" t = t).
Proof.
  intro Hne. split; [|reflexivity].
  revert prev Hne. induction transcripts as [|t ts IH]; intros prev Hne.
  - reflexivity.
  - simpl fold_left.
    assert (Hf : JS.falsy prev = false) by (apply String.eqb_neq; exact Hne).
    assert (Hne' : ChatInputKeys.onresult prev t <> "").
    { unfold ChatInputKeys.onresult. destruct prev; [contradiction | discriminate]. }
    rewrite (IH _ Hne'). unfold ChatInputKeys.onresult. rewrite Hf.
    change (JS.join " " (prev :: t :: ts)) with (prev ++ " " ++ JS.join " " (t :: ts)).
    destruct ts as [|u us].
    + reflexivity.
    + change (JS.join " " ((prev ++ " " ++ t) :: u :: us))
        with ((prev ++ " " ++ t) ++ " " ++ JS.join " " (u :: us)).
      change (JS.join " " (t :: u :: us)) with (t ++ " " ++ JS.join " " (u :: us)).
      rewrite !AIServiceFacts.append_assoc. reflexivity.
Qed.

(** X21.  The suggestion buttons are shown only for a selected session
    without messages.  Clicking one always starts a turn, the loading flag
    is not consulted: the turn's context is the one user message, so its
    completion asks for a title; and the buttons are gone afterwards. *)
Theorem clickSuggestion_first_turn (clk : SendClock) (q : string) (st : State) :
  selectedExists st ->
  showsSuggestions st = true ->
  exists st' turn,
    clickSuggestion clk q st = (st', Some turn) /\
    contextMessages turn = [userMsgOf clk q None] /\
    titleCall turn = Some (q, activeModel (settings st)) /\
    showsSuggestions st' = false.
Proof.
  intros [[cur [s [Hc Hs]]] Hids] Hshow.
  unfold showsSuggestions, currentSession in Hshow. rewrite Hc, Hs in Hshow.
  destruct (ChatSession.messages s) as [|m ms] eqn:Hm; [|discriminate].
  destruct (find_In _ _ _ Hs) as [Hin Hid].
  assert (Hne : JS.falsy cur = false).
  { apply String.eqb_neq. rewrite <- Hid. apply Hids, Hin. }
  unfold clickSuggestion, handleSendMessage. rewrite Hc, Hne, Hs, Hm.
  eexists. eexists. split; [reflexivity|]. split; [reflexivity|].
  split; [reflexivity|].
  unfold showsSuggestions, currentSession.
  cbn [sessions currentSessionId setSessions setIsLoading]. rewrite Hc.
  rewrite !findSession_mapSession by reflexivity. rewrite Hs. simpl.
  rewrite Hm. reflexivity.
Qed.

End StoreMore.

(** * Further closed instances *)
Module MoreInstances.
Import AIService App Traces Stores Shapes AppShell GeminiRequest.
Import Examples MoreExamples AdapterMore StoreMore.

(** A 401 answered to an OpenAI call. *)
Lemma streamResponse_http_error_witness :
  (activeModel settings1 <> Gemini /\
   apiKeys settings1 (activeModel settings1) = Some "sk-test" /\
   "sk-test" <> "" /\
   fetch (envOf (FetchResolves deniedResponse)) = FetchResolves deniedResponse /\
   ok deniedResponse = false /\
   AIService.text deniedResponse = inr "denied") /\
  callbacks (fst (streamResponse JSONText.parse (envOf (FetchResolves deniedResponse))
                                 (contextMessages turn1) settings1))
  = [OnError ("API Error " ++ JS.toString (status deniedResponse) ++ ": " ++ "denied")] /\
  snd (streamResponse JSONText.parse (envOf (FetchResolves deniedResponse))
                      (contextMessages turn1) settings1) = inr tt.
Proof.
  split; [repeat split; try reflexivity; discriminate|].
  apply (streamResponse_http_error JSONText.parse
           (envOf (FetchResolves deniedResponse)) (contextMessages turn1) settings1
           "sk-test" "denied" deniedResponse); try reflexivity; discriminate.
Defined.

(** The one request of an OpenAI call. *)
Lemma streamResponse_one_fetch_witness :
  (activeModel settings1 <> Gemini /\
   apiKeys settings1 (activeModel settings1) = Some "sk-test" /\
   "sk-test" <> "") /\
  filter isFetch (fst (streamResponse JSONText.parse (envOf (okResponse wholeReads))
                                      (contextMessages turn1) settings1))
  = [Fetch (baseUrl (activeModel settings1) ++ "/chat/completions")
           ("Bearer " ++ "sk-test")
           (payload (contextMessages turn1) (activeModel settings1)
                    (systemInstruction settings1))] /\
  hd_error (fst (streamResponse JSONText.parse (envOf (okResponse wholeReads))
                                (contextMessages turn1) settings1))
  = Some (Fetch (baseUrl (activeModel settings1) ++ "/chat/completions")
                ("Bearer " ++ "sk-test")
                (payload (contextMessages turn1) (activeModel settings1)
                         (systemInstruction settings1))).
Proof.
  split; [repeat split; try reflexivity; discriminate|].
  apply (streamResponse_one_fetch JSONText.parse (envOf (okResponse wholeReads))
           (contextMessages turn1) settings1 "sk-test"); try reflexivity; discriminate.
Defined.

(** The end marker in the first read, a frame and a failure after it. *)
Lemma readLoop_stops_at_done_witness :
  existsb (JS.includes "[DONE]") (linesOf (doneFrame ++ LF)) = true /\
  readLoop JSONText.parse [doneFrame ++ LF; hiFrame ++ LF] (Some OtherValue) "so far"
  = readLoop JSONText.parse [doneFrame ++ LF] None "so far".
Proof.
  split; [vm_compute; reflexivity|].
  apply (readLoop_stops_at_done JSONText.parse (doneFrame ++ LF)
           [hiFrame ++ LF] [] (Some OtherValue) None "so far").
  vm_compute. reflexivity.
Defined.

Lemma yields_groups1 :
  Forall2 (yields JSONText.parse) [frame hiPayload; ": keep-alive"; frame hiPayload]
          [Some "Hi"; None; Some "Hi"].
Proof.
  assert (H : yields JSONText.parse (frame hiPayload) (Some "Hi")).
  { split; [vm_compute; reflexivity|]. split; [vm_compute; reflexivity|].
    eexists _, _, _. repeat split; vm_compute; reflexivity. }
  constructor; [exact H|]. constructor.
  - split; [vm_compute; reflexivity|]. left. vm_compute. reflexivity.
  - constructor; [exact H | constructor].
Defined.

(** Two frames with a comment line between them, the end marker, and a
    frame after it. *)
Lemma streamResponse_frames_then_done_witness :
  (activeModel settings1 <> Gemini /\
   apiKeys settings1 (activeModel settings1) = Some "sk-test" /\
   "sk-test" <> "" /\
   fetch (envOf (FetchResolves framesResponse)) = FetchResolves framesResponse /\
   ok framesResponse = true /\
   body framesResponse
   = Some {| reads := map unlines groups1; ending := Some OtherValue |} /\
   forallb (forallb singleLine) groups1 = true /\
   filter nonblank (concat groups1)
   = ([frame hiPayload; ": keep-alive"; frame hiPayload]
      ++ "data: [DONE]" :: [frame hiPayload])%list /\
   Forall2 (yields JSONText.parse) [frame hiPayload; ": keep-alive"; frame hiPayload]
           [Some "Hi"; None; Some "Hi"]) /\
  callbacks (fst (streamResponse JSONText.parse (envOf (FetchResolves framesResponse))
                                 (contextMessages turn1) settings1))
  = (map OnChunk (texts [Some "Hi"; None; Some "Hi"])
     ++ [OnComplete (concatAll (texts [Some "Hi"; None; Some "Hi"]))])%list.
Proof.
  split.
  - repeat split; try reflexivity; try discriminate; try exact yields_groups1;
      vm_compute; reflexivity.
  - apply (streamResponse_frames_then_done JSONText.parse
             (envOf (FetchResolves framesResponse)) (contextMessages turn1) settings1
             "sk-test" framesResponse groups1
             [frame hiPayload; ": keep-alive"; frame hiPayload]
             [frame hiPayload] [Some "Hi"; None; Some "Hi"] (Some OtherValue));
      try reflexivity; try discriminate; try exact yields_groups1; vm_compute; reflexivity.
Defined.

(** The chunk of the frame of ["Hi"]. *)
Lemma dataLine_chunk_only_for_content_witness :
  In (OnChunk "Hi") (fst (dataLine JSONText.parse hiFrame "")) /\
  dataLine JSONText.parse hiFrame "" = ([OnChunk "Hi"], inr ("" ++ "Hi")).
Proof.
  assert (H : In (OnChunk "Hi") (fst (dataLine JSONText.parse hiFrame "")))
    by (vm_compute; left; reflexivity).
  split; [exact H|].
  destruct (dataLine_chunk_only_for_content JSONText.parse hiFrame "" "Hi" H)
    as [data [choices [first [v [_ [_ [_ [_ [_ [_ E]]]]]]]]]].
  exact E.
Defined.

(** The role frame that opens a stream. *)
Lemma dataLine_without_text_witness :
  JSONText.parse (JS.slice 6 (frame rolePayload)) = Some roleData /\
  dataLine JSONText.parse (frame rolePayload) "so far" = ([], inr "so far").
Proof.
  assert (H : JSONText.parse (JS.slice 6 (frame rolePayload)) = Some roleData)
    by (vm_compute; reflexivity).
  split; [exact H|].
  apply (dataLine_without_text JSONText.parse (frame rolePayload) "so far" roleData H).
  right. eexists. split; [reflexivity|]. right. right.
  eexists. eexists. split; [reflexivity|]. right.
  eexists. split; [reflexivity|]. left. reflexivity.
Defined.

(** SDK chunks with and without text. *)
Lemma streamResponse_gemini_witness :
  (activeModel DEFAULT_SETTINGS = Gemini /\
   getGeminiClient (gemini geminiEnv1) = None /\
   sendMessageStream (gemini geminiEnv1) = inr geminiStream1) /\
  callbacks (fst (streamResponse JSONText.parse geminiEnv1
                                 (userMsgOf clock1 "Hello" None :: []) DEFAULT_SETTINGS))
  = (map OnChunk (texts (chunks geminiStream1)) ++
     [match failure geminiStream1 with
      | None => OnComplete (concatAll (texts (chunks geminiStream1)))
      | Some (ErrorObject message) => OnError message
      | Some OtherValue => OnError "Unknown error occurred"
      end])%list.
Proof.
  split; [repeat split; reflexivity|].
  apply (streamResponse_gemini JSONText.parse geminiEnv1 (userMsgOf clock1 "Hello" None)
           [] DEFAULT_SETTINGS geminiStream1); reflexivity.
Defined.

(** A first message with a PNG image. *)
Lemma history_and_newParts_witness :
  (activeModel DEFAULT_SETTINGS = Gemini /\
   getGeminiClient (gemini geminiEnv1) = None) /\
  (exists parts tl,
      fst (streamResponse JSONText.parse geminiEnv1
             [userMsgOf clock1 "What is this?" (Some "data:image/png;base64,AAAA")]
             DEFAULT_SETTINGS)
      = SdkSend (systemInstruction DEFAULT_SETTINGS)
                (history [userMsgOf clock1 "What is this?"
                                    (Some "data:image/png;base64,AAAA")])
                parts :: tl /\
      filter isSdkSend tl = [] /\
      (history [userMsgOf clock1 "What is this?" (Some "data:image/png;base64,AAAA")]
       ++ [(Message.role
              (last [] (userMsgOf clock1 "What is this?"
                                  (Some "data:image/png;base64,AAAA"))), parts)])%list
      = map (fun x => (Message.role x, partsOf x))
            [userMsgOf clock1 "What is this?" (Some "data:image/png;base64,AAAA")]) /\
  partsOf (userMsgOf clock1 "What is this?" (Some "data:image/png;base64,AAAA"))
  = [inlineData "AAAA" "image/jpeg"; text "What is this?"] /\
  streamResponse JSONText.parse geminiEnv1 [] DEFAULT_SETTINGS
  = ([OnError "Cannot read properties of undefined (reading 'image')"], inr tt).
Proof.
  split; [split; reflexivity|].
  destruct (history_and_newParts JSONText.parse geminiEnv1
              (userMsgOf clock1 "What is this?" (Some "data:image/png;base64,AAAA"))
              [] DEFAULT_SETTINGS) as [H1 [H2 H3]]; try reflexivity.
  split; [exact H1|]. split; [|exact H3].
  rewrite H2. reflexivity.
Defined.

(** A message of six words. *)
Lemma generateTitle_heuristic_witness :
  OpenAI <> Gemini /\
  exists kept cut,
    "Explain quantum physics to a child" = kept ++ cut /\
    generateTitle geminiEnv1 "Explain quantum physics to a child" OpenAI = kept ++ "..." /\
    spaces kept <= 3 /\
    (cut = "" \/ (spaces kept = 3 /\ exists rest, cut = String " " rest)) /\
    (spaces "Explain quantum physics to a child" < 4 -> cut = "").
Proof.
  split; [discriminate|].
  apply (generateTitle_heuristic geminiEnv1 "Explain quantum physics to a child" OpenAI).
  discriminate.
Defined.

(** No client can be made. *)
Lemma generateTitle_never_empty_witness :
  (exists e, getGeminiClient (gemini noClientEnv) = Some e) /\
  generateTitle noClientEnv "Hello" Gemini = "New Chat".
Proof.
  assert (H : exists e, getGeminiClient (gemini noClientEnv) = Some e)
    by (eexists; reflexivity).
  split; [exact H|].
  apply (proj2 (generateTitle_never_empty noClientEnv "Hello" Gemini)).
  left. exact H.
Defined.

(** A PNG data URL, and bare base64 text. *)
Lemma base64ToPart_strips_header_witness :
  (allWord "png" = true /\ stripPrefix "data:image/" "iVBORw0KGgo=" = None) /\
  base64ToPart ("data:image/" ++ "png" ++ ";base64," ++ "iVBORw0KGgo=")
  = inlineData "iVBORw0KGgo=" "image/jpeg" /\
  base64ToPart "iVBORw0KGgo=" = inlineData "iVBORw0KGgo=" "image/jpeg".
Proof.
  split; [split; reflexivity|].
  apply (base64ToPart_strips_header "p" "ng" "iVBORw0KGgo=" "iVBORw0KGgo=");
    reflexivity.
Defined.

Lemma selectedExists_state0 : selectedExists state0.
Proof.
  split.
  - exists "1700000000000", session1. split; reflexivity.
  - intros s [<-|[<-|[]]]; vm_compute; discriminate.
Defined.

(** The first send into [session1]. *)
Lemma handleSendMessage_appends_witness :
  (currentSessionId state0 = Some "1700000000000" /\ "1700000000000" <> "") /\
  exists st' turn,
    handleSendMessage clock1 "Hello" None state0 = (st', Some turn) /\
    sessions st'
    = map (fun s =>
             if (ChatSession.id s =? "1700000000000")%string
             then ChatSession.mk (ChatSession.id s) (ChatSession.title s)
                    (ChatSession.messages s
                     ++ [userMsgOf clock1 "Hello" None; placeholderOf clock1])
                    (ChatSession.createdAt s) (tUpdatedAt clock1) (ChatSession.model s)
             else s)
          (sessions state0) /\
    isLoading st' = true /\
    currentSessionId st' = Some "1700000000000" /\
    settings st' = settings state0 /\
    sessionId turn = "1700000000000" /\
    aiMsgId turn = Message.id (placeholderOf clock1) /\
    contextMessages turn
    = (match findSession "1700000000000" (sessions state0) with
       | Some s => ChatSession.messages s
       | None => []
       end ++ [userMsgOf clock1 "Hello" None])%list.
Proof.
  split; [split; [reflexivity | discriminate]|].
  apply (handleSendMessage_appends clock1 "Hello" None state0 "1700000000000");
    [reflexivity | discriminate].
Defined.

(** Both ids read off the same millisecond. *)
Lemma placeholder_id_differs_witness :
  (tUserId clock1 <= tAiId clock1)%N /\
  Message.id (placeholderOf clock1) <> Message.id (userMsgOf clock1 "Hello" None).
Proof.
  assert (H : (tUserId clock1 <= tAiId clock1)%N) by (vm_compute; discriminate).
  split; [exact H|].
  apply (placeholder_id_differs clock1 "Hello" None H).
Defined.

(** The first turn of [session1], streamed from the whole read. *)
Lemma turn_end_to_end_witness :
  (handleSendMessage clock1 "Hello" None state0 = (state1, Some turn1) /\
   oneSession (sessionId turn1) (sessions state0) /\
   findSession (sessionId turn1) (sessions state0) = Some session1 /\
   freshId (aiMsgId turn1) (ChatSession.messages session1) /\
   (tUserId clock1 <= tAiId clock1)%N) /\
  placeholderContent turn1 state1 = Some "" /\
  isLoading (afterStream wholeReads) = false.
Proof.
  assert (Ho : oneSession (sessionId turn1) (sessions state0))
    by (vm_compute; repeat constructor).
  assert (Hf : freshId (aiMsgId turn1) (ChatSession.messages session1))
    by (intros m []).
  assert (Hle : (tUserId clock1 <= tAiId clock1)%N) by (vm_compute; discriminate).
  split; [repeat split; try reflexivity; assumption|].
  destruct (turn_end_to_end JSONText.parse (envOf (okResponse wholeReads))
              clock1 "Hello" None state0 state1 turn1 session1
              eq_refl Ho eq_refl Hf Hle)
    as [cs [terminal [_ [_ [H0 [_ Hl]]]]]].
  split; [exact H0 | exact Hl].
Defined.

(** Two stored sessions. *)
Lemma load_selects_existing_witness :
  (forall l s, Some [session1; session2] = Some l -> In s l -> ChatSession.id s <> "") /\
  selectedExists (load (Some [session1; session2]) (Some settings1) 1 2 3) /\
  sessions (load (Some [session1; session2]) (Some settings1) 1 2 3) <> [].
Proof.
  assert (H : forall l s, Some [session1; session2] = Some l -> In s l ->
                          ChatSession.id s <> "").
  { intros l s E. injection E as <-. intros [<-|[<-|[]]]; vm_compute; discriminate. }
  split; [exact H|].
  destruct (load_selects_existing (Some [session1; session2]) (Some settings1) 1 2 3 H)
    as [H1 [H2 _]].
  split; [exact H1 | exact H2].
Defined.

Lemma allOffered_actions3 : allOffered actions3 state1.
Proof.
  simpl. repeat split. exists session2. split; [right; left; reflexivity | reflexivity].
Defined.

Lemma selectedExists_state1 : selectedExists state1.
Proof.
  split.
  - exists "1700000000000", streaming1. split; reflexivity.
  - intros s [<-|[<-|[]]]; vm_compute; discriminate.
Defined.

(** A chunk, a selection, a deletion and a new chat. *)
Lemma selectedExists_run_witness :
  (selectedExists state1 /\ allOffered actions3 state1) /\
  selectedExists (run actions3 state1) /\ sessions (run actions3 state1) <> [].
Proof.
  split; [split; [exact selectedExists_state1 | exact allOffered_actions3]|].
  apply (selectedExists_run actions3 state1 selectedExists_state1 allOffered_actions3).
Defined.

(** A second send from the box while [turn1] streams. *)
Lemma handleSend_single_flight_witness :
  (ChatInput.handleSend clock1 input1 state0
   = ({| ChatInput.text := ""; ChatInput.image := None |}, (state1, Some turn1)) /\
   forallb keepsLoading actions3 = true) /\
  ChatInput.handleSend clock1 input1 (run actions3 state1)
  = (input1, (run actions3 state1, None)) /\
  (forall e, ChatInputKeys.handleKeyDown e clock1 input1 (run actions3 state1)
             = (input1, (run actions3 state1, None))) /\
  (forall turn' st', isLoading (fst (onComplete turn' st')) = false) /\
  (forall turn' message st', isLoading (onError turn' message st') = false).
Proof.
  split; [split; reflexivity|].
  apply (handleSend_single_flight clock1 clock1 input1
           {| ChatInput.text := ""; ChatInput.image := None |} input1
           state0 state1 turn1 actions3); reflexivity.
Defined.

(** Deleting [session1] while it streams keeps [session2]. *)
Lemma deleteChat_keeps_others_witness :
  (In session2 (sessions state1) /\ ChatSession.id session2 <> "1700000000000") /\
  In session2 (sessions (deleteChat "1700000000000" 1 2 3 state1)).
Proof.
  assert (H1 : In session2 (sessions state1)) by (right; left; reflexivity).
  assert (H2 : ChatSession.id session2 <> "1700000000000") by (vm_compute; discriminate).
  split; [split; assumption|].
  apply (proj1 (deleteChat_keeps_others "1700000000000" 1 2 3 state1) session2 H1 H2).
Defined.

(** A DeepSeek key typed into the default settings. *)
Lemma setApiKey_is_sent_witness :
  DeepSeek <> Gemini /\
  hd_error (fst (streamResponse JSONText.parse (envOf (okResponse wholeReads))
                   (contextMessages turn1)
                   (setActiveModel DeepSeek
                      (setApiKey DeepSeek (String "k" "ey") DEFAULT_SETTINGS))))
  = Some (Fetch (baseUrl DeepSeek ++ "/chat/completions")
            ("Bearer " ++ String "k" "ey")
            (payload (contextMessages turn1) DeepSeek
                     (systemInstruction DEFAULT_SETTINGS))).
Proof.
  split; [discriminate|].
  apply (proj1 (setApiKey_is_sent JSONText.parse (envOf (okResponse wholeReads))
                  (contextMessages turn1) DEFAULT_SETTINGS DeepSeek "k" "ey"
                  ltac:(discriminate))).
Defined.

(** Two dictations after a typed word. *)
Lemma onresult_joins_witness :
  "note" <> "" /\
  fold_left ChatInputKeys.onresult ["buy"; "milk"] "note"
  = JS.join " " ["note"; "buy"; "milk"].
Proof.
  split; [discriminate|].
  apply (proj1 (onresult_joins "note" ["buy"; "milk"] ltac:(discriminate))).
Defined.

(** A suggestion clicked in the empty [session1]. *)
Lemma clickSuggestion_first_turn_witness :
  (selectedExists state0 /\ showsSuggestions state0 = true) /\
  exists st' turn,
    clickSuggestion clock1 "Plan a trip to Japan" state0 = (st', Some turn) /\
    contextMessages turn = [userMsgOf clock1 "Plan a trip to Japan" None] /\
    titleCall turn = Some ("Plan a trip to Japan", activeModel (settings state0)) /\
    showsSuggestions st' = false.
Proof.
  split; [split; [exact selectedExists_state0 | reflexivity]|].
  apply (clickSuggestion_first_turn clock1 "Plan a trip to Japan" state0
           selectedExists_state0); reflexivity.
Defined.

End MoreInstances.
